(** * SnarpingTool: the region model and the video capture loop of [app.py]

    A shallow embedding of [Region] and [VideoRecorder] (src/app.py), and
    of what surrounds them: the region of a drag in [RegionSelector], the
    display and the callbacks of [TimerManager], and the states of
    [ScreenCaptureApp].

    - Python integers are [Z].  The monotonic clock counts ticks; the
      readings of [perf_counter], the sleep durations and the frame interval
      are exact rationals [Q], in seconds.  The source uses floats, whose
      rounding is not modelled: the properties below do not depend on the
      value of a time or of a duration, and the coordinates of a drag are
      taken on whole pixels where their value matters.
    - A raised exception is a value of [exn]; a call that may raise returns a
      [result].
    - [cv2.VideoWriter] objects live in a store ([writers]) and are
      referenced by index, so that [self.writer] and the recording thread
      see the same object.  Threads live in a table ([threads]).
    - The recording thread runs [_record_loop] in atomic steps, and the
      caller's [start_recording] and [stop_recording] can come between any
      two of them: the test of [stop_event] at the top of a cycle; the
      screenshot with its conversion; the read of [self.writer]; the call of
      [write] on the writer that was read, with the pacing that follows.
    - What the operating system, pyautogui and OpenCV decide (whether the
      writer opens, what a screenshot returns, how long things take, how far
      the thread gets while the caller waits in [join]) is given by an
      environment [Env].
    - Calls to [logger] change nothing that is modelled and are left out. *)

From Stdlib Require Import ZArith QArith Qround Qabs Lia Lqa String.
From Stdlib Require Import Ascii DecimalString.
From stdpp Require Import base list option.

Local Open Scope Z_scope.

(** ** Exceptions *)

Inductive exn : Type :=
| ValueError (msg : string)
| IOError (msg : string)
| ZeroDivisionError
| AttributeError
| ExternalError (code : nat).

Inductive result (A : Type) : Type :=
| Ok (a : A)
| Raise (e : exn).

Arguments Ok {A} a.
Arguments Raise {A} e.

Definition is_ok {A : Type} (r : result A) : bool :=
  match r with Ok _ => true | Raise _ => false end.

(** ** Region (app.py, lines 33-60) *)

Module Region.

Record t : Type := mk { x : Z; y : Z; width : Z; height : Z }.

(** [__post_init__]: the validation run by the dataclass constructor. *)
Definition post_init (self : t) : result unit :=
  if (width self <=? 0) || (height self <=? 0)
  then Raise (ValueError "Width and height must be positive")
  else if (x self <? 0) || (y self <? 0)
  then Raise (ValueError "Coordinates must be non-negative")
  else Ok tt.

(** [Region(x, y, width, height)]: store the fields, then validate. *)
Definition new (x y width height : Z) : result t :=
  let self := mk x y width height in
  match post_init self with
  | Ok _ => Ok self
  | Raise e => Raise e
  end.

Definition as_tuple (self : t) : Z * Z * Z * Z :=
  (x self, y self, width self, height self).

(** Python's [%] with a positive divisor is [Z.modulo]. *)
Definition make_even_dimensions (self : t) : result t :=
  new (x self) (y self)
      (width self - width self mod 2)
      (height self - height self mod 2).

End Region.

(** ** Frames and the OpenCV calls on them *)

Inductive ChannelOrder : Type := RGB | BGR.

(** A frame: its [shape[:2]] is [(rows, cols)]; [pixels] names the
    screenshot it was taken from. *)
Record Frame : Type := mkFrame {
  rows : Z;
  cols : Z;
  channels : ChannelOrder;
  pixels : nat
}.

Definition swap_order (o : ChannelOrder) : ChannelOrder :=
  match o with RGB => BGR | BGR => RGB end.

(** [cv2.cvtColor(frame, cv2.COLOR_RGB2BGR)] exchanges the first and the
    third channel. *)
Definition cvtColor_RGB2BGR (f : Frame) : Frame :=
  mkFrame (rows f) (cols f) (swap_order (channels f)) (pixels f).

(** [cv2.resize(frame, (w, h), ...)]: the result has [h] rows and [w]
    columns. *)
Definition resize (f : Frame) (dsize : Z * Z) : Frame :=
  mkFrame (snd dsize) (fst dsize) (channels f) (pixels f).

(** ** The encoder sink *)

Record Writer : Type := mkWriter {
  w_filename : string;
  w_fps : Q;
  w_frameSize : Z * Z;          (* (width, height) *)
  w_isOpened : bool;
  w_written : list Frame;       (* frames handed to [write], oldest first *)
  w_releases : nat              (* calls of [release] *)
}.

(** [VideoWriter.write]: a writer that is not open ignores the frame. *)
Definition Writer_write (f : Frame) (w : Writer) : Writer :=
  if w_isOpened w
  then mkWriter (w_filename w) (w_fps w) (w_frameSize w) true
                (w_written w ++ [f]) (w_releases w)
  else w.

Definition Writer_release (w : Writer) : Writer :=
  mkWriter (w_filename w) (w_fps w) (w_frameSize w) false
           (w_written w) (S (w_releases w)).

(** ** The clock *)

(** The monotonic clock counts ticks; the environment says how many ticks
    make a second. *)
Record Clock : Type := mkClock {
  now : Z;            (* ticks *)
  sleeps : nat        (* calls of [time.sleep] so far *)
}.

(** ** The environment *)

Record Env : Type := mkEnv {
  (* clock ticks per second; a call of [perf_counter] takes one tick *)
  resolution : positive;
  (* [isOpened()] of a writer built with these arguments *)
  opens : string -> Q -> Z * Z -> bool;
  (* the k-th [pyautogui.screenshot(region=...)]: it raises, or the array
     made from it has this [(rows, cols)] *)
  screenshot : nat -> Z * Z * Z * Z -> result (Z * Z);
  capture_ticks : nat -> N;
  (* does the write of the frame with this index raise? *)
  write_error : nat -> option exn;
  write_ticks : nat -> N;
  (* by how many ticks the k-th [time.sleep] oversleeps *)
  oversleep_ticks : nat -> N;
  (* how many steps the joined thread takes before [join(timeout)] returns *)
  join_steps : Q -> nat
}.

(** A clock value in seconds. *)
Definition seconds (env : Env) (n : Z) : Q := n # resolution env.

(** The ticks that cover a duration in seconds. *)
Definition ticks_of (env : Env) (secs : Q) : Z :=
  Qceiling (secs * inject_Z (Zpos (resolution env))).

Definition elapse (n : N) (c : Clock) : Clock :=
  mkClock (now c + Z.of_N n) (sleeps c).

Definition perf_counter (env : Env) (c : Clock) : Q * Clock :=
  let c' := mkClock (now c + 1) (sleeps c) in (seconds env (now c'), c').

(** [time.sleep(secs)] suspends for at least [secs]. *)
Definition time_sleep (env : Env) (secs : Q) (c : Clock) : Clock :=
  mkClock (now c + ticks_of env secs + Z.of_N (oversleep_ticks env (sleeps c)))
          (S (sleeps c)).

Definition Qltb (a b : Q) : bool := negb (Qle_bool b a).

(** [while time.perf_counter() < end_time: pass], with a bound on the number
    of readings; [None] when the bound is reached first. *)
Fixpoint spin (env : Env) (fuel : nat) (end_time : Q) (c : Clock)
  : option Clock :=
  match fuel with
  | O => None
  | S fuel' =>
      let (t, c1) := perf_counter env c in
      if Qltb t end_time then spin env fuel' end_time c1 else Some c1
  end.

(** Readings that suffice: the ticks from now to [end_time], and one. *)
Definition spin_fuel (env : Env) (end_time : Q) (c : Clock) : nat :=
  S (Z.to_nat (ticks_of env end_time - now c)).

Definition busy_wait (env : Env) (end_time : Q) (c : Clock) : Clock :=
  match spin env (spin_fuel env end_time c) end_time c with
  | Some c' => c'
  | None => c
  end.

(** [max(0, d)] *)
Definition max0 (d : Q) : Q := if Qltb 0 d then d else 0%Q.

(** [VideoRecorder._precise_sleep] (lines 210-227), in exact arithmetic. *)
Definition precise_sleep (env : Env) (duration : Q) (c : Clock) : Clock :=
  if Qle_bool duration 0 then c
  else if Qltb duration (1 # 1000) then
    let (t, c1) := perf_counter env c in
    busy_wait env (t + duration) c1
  else
    let c1 := time_sleep env (max0 (duration - (1 # 1000))) c in
    let (t, c2) := perf_counter env c1 in
    busy_wait env (t + (1 # 1000)) c2.

(** Lines 194-203: the pacing at the end of a cycle, in exact arithmetic.
    The result is the new [next_frame_time]. *)
Definition pace (env : Env) (next_frame_time frame_interval : Q) (c : Clock)
  : Q * Clock :=
  let next_frame_time := (next_frame_time + frame_interval)%Q in
  let (t, c1) := perf_counter env c in
  let sleep_duration := (next_frame_time - t)%Q in
  if Qltb 0 sleep_duration
  then (next_frame_time, precise_sleep env sleep_duration c1)
  else perf_counter env c1.

(** ** Threads *)

Inductive Outcome : Type :=
| StoppedCleanly               (* the loop saw [stop_event] set *)
| Failed (e : exn)             (* [except Exception] caught [e] *)
| Crashed (e : exn).           (* [e] was raised outside the [try] *)

Inductive Phase : Type :=
| AtTop                        (* about to test [stop_event] *)
| AtCapture                    (* past the test, about to take the screenshot *)
| AtWrite (frame_bgr : Frame)  (* about to read [self.writer] *)
| AtWriteCall (frame_bgr : Frame) (wid : nat).
                               (* has read [self.writer], about to call [write] *)

Record Loop : Type := mkLoop {
  frame_interval : Q;
  next_frame_time : Q;
  frame_count : nat;
  phase : Phase
}.

Inductive Thread : Type :=
| Entering                               (* started, nothing run yet *)
| Running (l : Loop)
| Finished (o : Outcome) (frames : nat).

Definition is_alive (th : Thread) : bool :=
  match th with
  | Entering | Running _ => true
  | Finished _ _ => false
  end.

(** ** VideoRecorder (app.py, lines 102-238) *)

Record VideoRecorder : Type := mkRecorder {
  region : Region.t;
  fps : Z;
  filename : string;
  writer : option nat;             (* index into [writers] *)
  stop_event : bool;
  recording_thread : option nat    (* index into [threads] *)
}.

Record State : Type := mkState {
  self : VideoRecorder;
  clock : Clock;
  writers : list Writer;
  threads : list Thread;
  captures : list (Z * Z * Z * Z)  (* rectangles asked of pyautogui, oldest first *)
}.

Definition set_writer (o : option nat) (r : VideoRecorder) : VideoRecorder :=
  mkRecorder (region r) (fps r) (filename r) o (stop_event r) (recording_thread r).

Definition set_stop_event (b : bool) (r : VideoRecorder) : VideoRecorder :=
  mkRecorder (region r) (fps r) (filename r) (writer r) b (recording_thread r).

Definition set_recording_thread (o : option nat) (r : VideoRecorder)
  : VideoRecorder :=
  mkRecorder (region r) (fps r) (filename r) (writer r) (stop_event r) o.

Definition with_self (f : VideoRecorder -> VideoRecorder) (s : State) : State :=
  mkState (f (self s)) (clock s) (writers s) (threads s) (captures s).

Definition with_clock (f : Clock -> Clock) (s : State) : State :=
  mkState (self s) (f (clock s)) (writers s) (threads s) (captures s).

Definition with_writers (f : list Writer -> list Writer) (s : State) : State :=
  mkState (self s) (clock s) (f (writers s)) (threads s) (captures s).

Definition with_threads (f : list Thread -> list Thread) (s : State) : State :=
  mkState (self s) (clock s) (writers s) (f (threads s)) (captures s).

Definition with_captures (f : list (Z * Z * Z * Z) -> list (Z * Z * Z * Z))
  (s : State) : State :=
  mkState (self s) (clock s) (writers s) (threads s) (f (captures s)).

(** [__init__] (lines 105-111). *)
Definition VideoRecorder_init (region : Region.t) (fps : Z) (filename : string)
  : result VideoRecorder :=
  match Region.make_even_dimensions region with
  | Raise e => Raise e
  | Ok r => Ok (mkRecorder r fps filename None false None)
  end.

(** The program state just after the recorder has been built. *)
Definition boot (r : VideoRecorder) : State :=
  mkState r (mkClock 0 0) [] [] [].

(** [_cleanup] (lines 229-238).  [release] does not raise. *)
Definition cleanup (s : State) : State :=
  match writer (self s) with
  | None => s
  | Some wid =>
      with_self (set_writer None)
        (with_writers (alter Writer_release wid) s)
  end.

(** [cv2.VideoWriter(filename, fourcc, fps, frameSize)] *)
Definition VideoWriter (env : Env) (filename : string) (fps : Q)
  (frameSize : Z * Z) : Writer :=
  mkWriter filename fps frameSize (opens env filename fps frameSize) [] 0.

(** The [try] block of [start_recording] (lines 116-136). *)
Definition start_recording_try (env : Env) (s : State) : result bool * State :=
  let me := self s in
  let w := VideoWriter env (filename me) (inject_Z (fps me))
             (Region.width (region me), Region.height (region me)) in
  let wid := length (writers s) in
  let s1 := with_self (set_writer (Some wid))
              (with_writers (fun ws => ws ++ [w]) s) in
  if negb (w_isOpened w)
  then (Raise (IOError "Cannot initialize video writer"), s1)
  else
    let s2 := with_self (set_stop_event false) s1 in
    let tid := length (threads s2) in
    let s3 := with_self (set_recording_thread (Some tid))
                (with_threads (fun ts => ts ++ [Entering]) s2) in
    (Ok true, s3).

(** [start_recording] (lines 113-141). *)
Definition start_recording (env : Env) (s : State) : bool * State :=
  match start_recording_try env s with
  | (Ok b, s') => (b, s')
  | (Raise _, s') => (false, cleanup s')
  end.

(** The frame handed to the writer, from a screenshot of the given shape
    (lines 177-188). *)
Definition prepare_frame (r : Region.t) (shape : Z * Z) (k : nat) : Frame :=
  let frame := mkFrame (fst shape) (snd shape) RGB k in
  let frame_bgr := cvtColor_RGB2BGR frame in
  if negb ((rows frame_bgr =? Region.height r) && (cols frame_bgr =? Region.width r))
  then resize frame_bgr (Region.width r, Region.height r)
  else frame_bgr.

(** One step of the [while] loop of [_record_loop] (lines 172-203); the
    result is the thread's next state. *)
Definition record_loop_step (env : Env) (l : Loop) (s : State)
  : Thread * State :=
  match phase l with
  | AtTop =>
      (* line 172, and the reading of the clock of line 173 *)
      if stop_event (self s)
      then (Finished StoppedCleanly (frame_count l), s)
      else
        (Running (mkLoop (frame_interval l) (next_frame_time l)
                    (frame_count l) AtCapture),
         with_clock (fun c => snd (perf_counter env c)) s)
  | AtCapture =>
      (* lines 176-188 *)
      let k := length (captures s) in
      let rect := Region.as_tuple (region (self s)) in
      let s1 :=
        with_captures (fun cs => cs ++ [rect])
          (with_clock (elapse (capture_ticks env k)) s) in
      match screenshot env k rect with
      | Raise e => (Finished (Failed e) (frame_count l), s1)
      | Ok shape =>
          let frame_bgr := prepare_frame (region (self s)) shape k in
          (Running (mkLoop (frame_interval l) (next_frame_time l)
                      (frame_count l) (AtWrite frame_bgr)), s1)
      end
  | AtWrite frame_bgr =>
      (* line 191: [self.writer] is read *)
      match writer (self s) with
      | None => (Finished (Failed AttributeError) (frame_count l), s)
      | Some wid =>
          (Running (mkLoop (frame_interval l) (next_frame_time l)
                      (frame_count l) (AtWriteCall frame_bgr wid)), s)
      end
  | AtWriteCall frame_bgr wid =>
      (* line 191: [write] is called on the writer that was read; then
         lines 192-203 *)
      let s1 :=
        with_writers (alter (Writer_write frame_bgr) wid)
          (with_clock (elapse (write_ticks env (frame_count l))) s) in
      match write_error env (frame_count l) with
      | Some e => (Finished (Failed e) (frame_count l), s1)
      | None =>
          let (nft, c) :=
            pace env (next_frame_time l) (frame_interval l) (clock s1) in
          (Running (mkLoop (frame_interval l) nft
                      (S (frame_count l)) AtTop),
           with_clock (fun _ => c) s1)
      end
  end.

(** The first step of [_record_loop] (lines 167-169), outside the [try]. *)
Definition record_loop_enter (env : Env) (s : State) : Thread * State :=
  if fps (self s) =? 0
  then (Finished (Crashed ZeroDivisionError) 0, s)
  else
    let (t, c) := perf_counter env (clock s) in
    (Running (mkLoop (1 / inject_Z (fps (self s))) t 0 AtTop),
     with_clock (fun _ => c) s).

(** One step of thread [tid]. *)
Definition thread_step (env : Env) (tid : nat) (s : State) : State :=
  match threads s !! tid with
  | Some Entering =>
      let (th, s') := record_loop_enter env s in
      with_threads (fun ts => <[tid := th]> ts) s'
  | Some (Running l) =>
      let (th, s') := record_loop_step env l s in
      with_threads (fun ts => <[tid := th]> ts) s'
  | Some (Finished _ _) | None => s
  end.

Definition thread_alive (s : State) (tid : nat) : bool :=
  match threads s !! tid with
  | Some th => is_alive th
  | None => false
  end.

(** [thread.join(timeout)]: the thread runs for as long as the environment
    lets it. *)
Definition join (env : Env) (tid : nat) (timeout : Q) (s : State) : State :=
  Nat.iter (join_steps env timeout) (thread_step env tid) s.

(** [stop_recording] (lines 143-163).  [join] does not raise here: the
    thread was started and is not the caller. *)
Definition stop_recording (env : Env) (timeout : Q) (s : State)
  : bool * State :=
  match recording_thread (self s) with
  | None => (true, s)
  | Some tid =>
      if negb (thread_alive s tid) then (true, s)
      else
        let s1 := with_self (set_stop_event true) s in
        let s2 := join env tid timeout s1 in
        let success := negb (thread_alive s2 tid) in
        (success, cleanup s2)
  end.

(** ** Executions *)

(** The states a recorder built as [r0] can be in: the caller starts and
    stops it, and the threads take steps in between. *)
Inductive reachable (env : Env) (r0 : VideoRecorder) : State -> Prop :=
| reach_boot : reachable env r0 (boot r0)
| reach_start s :
    reachable env r0 s -> reachable env r0 (snd (start_recording env s))
| reach_stop timeout s :
    reachable env r0 s -> reachable env r0 (snd (stop_recording env timeout s))
| reach_step tid s :
    reachable env r0 s -> reachable env r0 (thread_step env tid s).

(** ** The invariant of an execution *)

Definition frame_ok (r : Region.t) (f : Frame) : Prop :=
  rows f = Region.height r /\ cols f = Region.width r /\ channels f = BGR.

Definition writer_ok (r : Region.t) (w : Writer) : Prop :=
  w_frameSize w = (Region.width r, Region.height r) /\
  Forall (frame_ok r) (w_written w).

Definition thread_ok (r0 : VideoRecorder) (th : Thread) : Prop :=
  match th with
  | Running l =>
      frame_interval l = (1 / inject_Z (fps r0))%Q /\
      fps r0 <> 0 /\
      match phase l with
      | AtTop | AtCapture => True
      | AtWrite f | AtWriteCall f _ => frame_ok (region r0) f
      end
  | Entering | Finished _ _ => True
  end.

Record Inv (r0 : VideoRecorder) (s : State) : Prop := mkInv {
  inv_region : region (self s) = region r0;
  inv_fps : fps (self s) = fps r0;
  inv_filename : filename (self s) = filename r0;
  inv_writers : Forall (writer_ok (region r0)) (writers s);
  inv_captures : Forall (fun c => c = Region.as_tuple (region r0)) (captures s);
  inv_threads : Forall (thread_ok r0) (threads s)
}.

(** The steps a thread can still take once [stop_event] is set. *)
Definition steps_left (th : Thread) : nat :=
  match th with
  | Entering => 2
  | Running l =>
      match phase l with
      | AtTop => 1
      | AtCapture => 4
      | AtWrite _ => 3
      | AtWriteCall _ _ => 2
      end
  | Finished _ _ => 0
  end.

(** Releases: no writer released twice, and the one held not released. *)
Definition release_ok (s : State) : Prop :=
  Forall (fun w => (w_releases w <= 1)%nat) (writers s) /\
  forall wid, writer (self s) = Some wid ->
    exists w, writers s !! wid = Some w /\ w_releases w = 0%nat.

(** ** Sample runs *)

Local Open Scope string_scope.

Definition sample_region : Region.t := Region.mk 10 10 101 51.

Definition sample_recorder : VideoRecorder :=
  mkRecorder (Region.mk 10 10 100 50) 30 "out.mp4" None false None.

(** A millisecond clock; the writer opens; a screenshot has one row and one
    column too many and takes 2 ms; a write takes 3 ms. *)
Definition fast_env : Env :=
  mkEnv 1000 (fun _ _ _ => true) (fun _ _ => Ok (51, 101))
        (fun _ => 2%N) (fun _ => None) (fun _ => 3%N) (fun _ => 1%N)
        (fun _ => 2%nat).

(** As [fast_env], but the first screenshot raises. *)
Definition capture_fails_env : Env :=
  mkEnv 1000 (fun _ _ _ => true)
        (fun k _ => match k with O => Raise (ExternalError 1) | S _ => Ok (50, 100) end)
        (fun _ => 2%N) (fun _ => None) (fun _ => 3%N) (fun _ => 1%N)
        (fun _ => 2%nat).

(** As [fast_env], but the first write raises. *)
Definition write_fails_env : Env :=
  mkEnv 1000 (fun _ _ _ => true) (fun _ _ => Ok (51, 101))
        (fun _ => 2%N)
        (fun k => match k with O => Some (ExternalError 2) | S _ => None end)
        (fun _ => 3%N) (fun _ => 1%N) (fun _ => 2%nat).

(** As [fast_env], but the writer does not open. *)
Definition no_open_env : Env :=
  mkEnv 1000 (fun _ _ _ => false) (fun _ _ => Ok (50, 100))
        (fun _ => 2%N) (fun _ => None) (fun _ => 3%N) (fun _ => 1%N)
        (fun _ => 2%nat).

Definition started (env : Env) : State :=
  snd (start_recording env (boot sample_recorder)).

(** The thread has entered the loop, tested the flag and taken a
    screenshot. *)
Definition captured (env : Env) : State :=
  thread_step env 0 (thread_step env 0 (thread_step env 0 (started env))).

(** The thread has gone through one whole cycle. *)
Definition one_cycle (env : Env) : State :=
  thread_step env 0 (thread_step env 0 (captured env)).

Local Close Scope string_scope.

(** ** Sequences of operations *)

(** What can happen to a recorder: the caller starts or stops it, a thread
    takes a step. *)
Inductive Op : Type :=
| OpStart
| OpStop (timeout : Q)
| OpStep (tid : nat).

Definition apply_op (env : Env) (s : State) (o : Op) : State :=
  match o with
  | OpStart => snd (start_recording env s)
  | OpStop timeout => snd (stop_recording env timeout s)
  | OpStep tid => thread_step env tid s
  end.

Definition run (env : Env) (ops : list Op) (s : State) : State :=
  fold_left (apply_op env) ops s.

(** Steps of threads only, in the given order. *)
Definition thread_steps (env : Env) (tids : list nat) (s : State) : State :=
  fold_left (fun s tid => thread_step env tid s) tids s.

(** ** Threads between two tests of the flag *)

(** Is the thread about to take a screenshot?  It has tested the flag,
    found it clear, and has not called [pyautogui.screenshot] yet. *)
Definition capturing (th : Thread) : nat :=
  match th with
  | Running l =>
      match phase l with
      | AtCapture => 1
      | AtTop | AtWrite _ | AtWriteCall _ _ => 0
      end
  | Entering | Finished _ _ => 0
  end.

Fixpoint count_capturing (ts : list Thread) : nat :=
  match ts with
  | [] => 0
  | th :: ts => capturing th + count_capturing ts
  end.

(** The writer the thread has read from [self.writer] and is about to call
    [write] on. *)
Definition write_target (th : Thread) : option nat :=
  match th with
  | Running l =>
      match phase l with
      | AtWriteCall _ wid => Some wid
      | AtTop | AtCapture | AtWrite _ => None
      end
  | Entering | Finished _ _ => None
  end.

(** The writer at [wid], if there is one, is not open. *)
Definition closed_at (s : State) (wid : nat) : Prop :=
  match writers s !! wid with
  | Some w => w_isOpened w = false
  | None => True
  end.

(** The thread is not about to call [write], or it calls it on the writer
    the recorder holds, or on one that is not open. *)
Definition target_ok (s : State) (th : Thread) : Prop :=
  match write_target th with
  | Some wid => writer (self s) = Some wid \/ closed_at s wid
  | None => True
  end.

Definition targets_held (s : State) : Prop := Forall (target_ok s) (threads s).

(** The thread is not about to call [write] on an open writer. *)
Definition target_closed (s : State) (th : Thread) : Prop :=
  match write_target th with
  | Some wid => closed_at s wid
  | None => True
  end.

(** The recorder has been stopped and cleaned up: the flag is set, no
    writer is held, and no thread is about to call [write] on an open
    writer. *)
Definition stopped (s : State) : Prop :=
  stop_event (self s) = true /\ writer (self s) = None /\
  Forall (target_closed s) (threads s).

(** As [fast_env], but [join] lets the thread take four steps. *)
Definition patient_env : Env :=
  mkEnv 1000 (fun _ _ _ => true) (fun _ _ => Ok (51, 101))
        (fun _ => 2%N) (fun _ => None) (fun _ => 3%N) (fun _ => 1%N)
        (fun _ => 4%nat).

(** A recorder whose frame rate is 0. *)
Definition zero_fps_recorder : VideoRecorder :=
  mkRecorder (Region.mk 10 10 100 50) 0 "out.mp4" None false None.

(** As [fast_env], but [join] comes back before the thread has taken a
    step. *)
Definition no_join_env : Env :=
  mkEnv 1000 (fun _ _ _ => true) (fun _ _ => Ok (51, 101))
        (fun _ => 2%N) (fun _ => None) (fun _ => 3%N) (fun _ => 1%N)
        (fun _ => 0%nat).

(** ** RegionSelector: the region of a drag (app.py, lines 318-346) *)

(** Canvas coordinates are floats, here rationals: their arithmetic is
    exact, which that of floats is on whole pixels.  [int(q)] truncates
    towards zero. *)
Definition py_int (q : Q) : Z :=
  if Qle_bool 0 q then Qfloor q else Qceiling q.

(** [min(a, b)]: the first argument unless the second is smaller. *)
Definition py_min (a b : Q) : Q := if Qltb b a then b else a.

(** A whole pixel coordinate small enough for a float to hold it exactly,
    as it holds the difference of two of them. *)
Definition pixel (a : Z) : Prop := Z.abs a <= 2 ^ 52.

(** The [try] block of [_on_release]: the region between the point of the
    press and the point of the release. *)
Definition selected_region (start_pos end_pos : Q * Q) : result Region.t :=
  let (x1, y1) := start_pos in
  let (x2, y2) := end_pos in
  match Region.new (py_int (py_min x1 x2)) (py_int (py_min y1 y2))
                   (py_int (Qabs (x2 - x1))) (py_int (Qabs (y2 - y1))) with
  | Raise e => Raise e
  | Ok region =>
      if (Region.width region <? 10) || (Region.height region <? 10)
      then Raise (ValueError "Selection too small (minimum 10x10 pixels)")
      else Ok region
  end.

(** [_on_release]: what is handed to [_cleanup], and so to the callback.
    [start_pos] is [None] when no press came before. *)
Definition on_release (start_pos : option (Q * Q)) (end_pos : Q * Q)
  : option Region.t :=
  match start_pos with
  | None => None
  | Some p =>
      match selected_region p end_pos with
      | Ok region => Some region
      | Raise _ => None
      end
  end.

(** ** TimerManager (app.py, lines 63-99) *)

Local Open Scope string_scope.

(** [str(n)], in decimal. *)
Definition py_str (n : Z) : string := NilZero.string_of_int (Z.to_int n).

(** [f"{n:02d}"]: [str(n)], with a zero in front when it is a single
    character. *)
Definition format_02d (n : Z) : string :=
  let s := py_str n in
  if (String.length s <? 2)%nat then "0" ++ s else s.

(** The text [_update_display] puts in [timer_var] (lines 95-97).
    [divmod] rounds down, as [Z.div] and [Z.modulo] do. *)
Definition format_elapsed (elapsed : Z) : string :=
  let hours := elapsed / 3600 in
  let remainder := elapsed mod 3600 in
  let minutes := remainder / 60 in
  let seconds := remainder mod 60 in
  format_02d hours ++ ":" ++ format_02d minutes ++ ":" ++ format_02d seconds.

(** A timer and the part of the Tk root it uses: the callbacks that
    [after] has scheduled and that have neither run nor been cancelled, and
    the number of the next callback. *)
Record TimerManager : Type := mkTimer {
  timer_var : string;
  start_time : option Q;
  is_running : bool;
  after_id : option nat;
  scheduled : list nat;
  next_after : nat
}.

(** [TimerManager(timer_var, root)], with the text the application puts in
    [timer_var]. *)
Definition timer_new : TimerManager :=
  mkTimer "00:00:00" None false None [] 0.

(** [not self.start_time]: true for [None] and for [0.0]. *)
Definition start_time_falsy (t : TimerManager) : bool :=
  match start_time t with
  | None => true
  | Some t0 => Qeq_bool t0 0
  end.

(** [_update_display] (lines 89-99); [time] is what [time.time()] returns. *)
Definition update_display (time : Q) (t : TimerManager) : TimerManager :=
  if negb (is_running t) || start_time_falsy t then t
  else
    match start_time t with
    | None => t
    | Some t0 =>
        let elapsed := py_int (time - t0) in
        mkTimer (format_elapsed elapsed) (start_time t) (is_running t)
                (Some (next_after t)) (scheduled t ++ [next_after t])
                (S (next_after t))
    end.

(** [start] (lines 73-77). *)
Definition timer_start (time : Q) (t : TimerManager) : TimerManager :=
  update_display time
    (mkTimer (timer_var t) (Some time) true (after_id t) (scheduled t)
             (next_after t)).

(** [after_cancel(id)] *)
Definition after_cancel (id : nat) (l : list nat) : list nat :=
  filter (fun i => i <> id) l.

(** [stop] (lines 79-87). *)
Definition timer_stop (t : TimerManager) : TimerManager :=
  let scheduled' :=
    match after_id t with
    | Some id => after_cancel id (scheduled t)
    | None => scheduled t
    end in
  mkTimer "00:00:00" (start_time t) false (after_id t) scheduled'
          (next_after t).

(** Tk runs the callback [id], if it is still scheduled. *)
Definition timer_fire (id : nat) (time : Q) (t : TimerManager) : TimerManager :=
  if decide (id ∈ scheduled t)
  then update_display time
         (mkTimer (timer_var t) (start_time t) (is_running t) (after_id t)
                  (after_cancel id (scheduled t)) (next_after t))
  else t.

(** The two digits of a number under 100, as characters. *)
Definition digit (n : Z) : ascii := ascii_of_nat (48 + Z.to_nat n).

Definition two_digits (n : Z) : string :=
  String (digit (n / 10)) (String (digit (n mod 10)) "").

Local Close Scope string_scope.

(** What happens to a timer: the application starts or stops it, Tk runs
    a callback. *)
Inductive TimerEvent : Type :=
| TStart (time : Q)
| TStop
| TFire (id : nat) (time : Q).

Definition timer_apply (t : TimerManager) (ev : TimerEvent) : TimerManager :=
  match ev with
  | TStart time => timer_start time t
  | TStop => timer_stop t
  | TFire id time => timer_fire id time t
  end.

Definition timer_run (evs : list TimerEvent) (t : TimerManager) : TimerManager :=
  fold_left timer_apply evs t.


Definition is_fire (ev : TimerEvent) : bool :=
  match ev with
  | TFire _ _ => true
  | TStart _ | TStop => false
  end.

(** While the timer runs exactly one callback is scheduled, the one
    [_after_id] names; while it does not run none is, and the display
    shows zeros. *)
Definition timer_ok (t : TimerManager) : Prop :=
  (is_running t = true ->
     exists id t0, after_id t = Some id /\ scheduled t = [id] /\
                   start_time t = Some t0 /\ ~ (t0 == 0)%Q) /\
  (is_running t = false ->
     scheduled t = [] /\ timer_var t = "00:00:00"%string).

(** ** ScreenCaptureApp: states and recorder (app.py, lines 375-742)

    The widgets, the status line and the message boxes are left out, and
    calls to Tk are taken not to raise.  What is kept is the state of the
    application, the recorder and the timer it owns, and the region
    selector it has opened. *)

Inductive AppState : Type := IDLE | SELECTING | RECORDING.

(** Which [on_selection] the open [RegionSelector] was given. *)
Inductive Purpose : Type := ForScreenshot | ForRecording.

Record App : Type := mkApp {
  app_state : AppState;
  recorder : option State;        (* [self.recorder], with its threads and writers *)
  abandoned : list State;         (* recorders the application has let go of *)
  timer_manager : TimerManager;
  selector : option Purpose;
  fps_var : Z;
  saved : list (string * (Z * Z * Z * Z));   (* screenshots written to disk *)
  root_alive : bool               (* the main window has not been destroyed *)
}.

Record AppEnv : Type := mkAppEnv {
  rec_env : Env;
  (* does taking and saving the still picture with this name succeed? *)
  still_ok : string -> bool
}.

(** [__init__]: the frame rate box shows 30. *)
Definition app_new : App := mkApp IDLE None [] timer_new None 30 [] true.

Definition is_idle (a : App) : bool :=
  match app_state a with IDLE => true | SELECTING | RECORDING => false end.

Definition is_recording (a : App) : bool :=
  match app_state a with RECORDING => true | IDLE | SELECTING => false end.

(** The frame rate box is read-only with these values (lines 465-471). *)
Definition fps_values : list Z := [15; 24; 30; 60].

Definition choose_fps (f : Z) (a : App) : App :=
  if decide (f ∈ fps_values)
  then mkApp (app_state a) (recorder a) (abandoned a) (timer_manager a)
             (selector a) f (saved a) (root_alive a)
  else a.

(** [_take_screenshot] and [_start_recording] up to the opening of the
    selector (lines 593-603 and 640-650). *)
Definition open_selector (p : Purpose) (a : App) : App :=
  if negb (is_idle a) then a
  else mkApp SELECTING (recorder a) (abandoned a) (timer_manager a)
             (Some p) (fps_var a) (saved a) (root_alive a).

(** [on_selection] of [_take_screenshot] (lines 605-636). *)
Definition on_selection_screenshot (env : AppEnv) (region : option Region.t)
  (name : string) (a : App) : App :=
  let saved' :=
    match region with
    | None => saved a
    | Some r =>
        if still_ok env name then saved a ++ [(name, Region.as_tuple r)]
        else saved a
    end in
  mkApp IDLE (recorder a) (abandoned a) (timer_manager a) None (fps_var a)
        saved' (root_alive a).

(** What becomes of the recorder held so far when [self.recorder] is
    assigned. *)
Definition let_go (a : App) : list State :=
  match recorder a with
  | Some rs => abandoned a ++ [rs]
  | None => abandoned a
  end.

(** [on_selection] of [_start_recording] (lines 652-683). *)
Definition on_selection_recording (env : AppEnv) (region : option Region.t)
  (name : string) (time : Q) (a : App) : App :=
  match region with
  | None =>
      mkApp IDLE (recorder a) (abandoned a) (timer_manager a) None (fps_var a)
            (saved a) (root_alive a)
  | Some r =>
      match VideoRecorder_init r (fps_var a) name with
      | Raise _ =>
          mkApp IDLE (recorder a) (abandoned a) (timer_manager a) None
                (fps_var a) (saved a) (root_alive a)
      | Ok rec =>
          let (ok, rs) := start_recording (rec_env env) (boot rec) in
          if ok
          then mkApp RECORDING (Some rs) (let_go a)
                     (timer_start time (timer_manager a)) None (fps_var a)
                     (saved a) (root_alive a)
          else mkApp IDLE (Some rs) (let_go a) (timer_manager a) None
                     (fps_var a) (saved a) (root_alive a)
      end
  end.

(** The selector hands its outcome to the callback it was given. *)
Definition deliver (env : AppEnv) (region : option Region.t) (name : string)
  (time : Q) (a : App) : App :=
  match selector a with
  | None => a
  | Some ForScreenshot => on_selection_screenshot env region name a
  | Some ForRecording => on_selection_recording env region name time a
  end.

(** [_stop_recording] (lines 687-716); the timeout is the default of
    [stop_recording]. *)
Definition app_stop_recording (env : AppEnv) (a : App) : App :=
  match recorder a with
  | Some rs =>
      if is_recording a
      then mkApp IDLE None
                 (abandoned a ++ [snd (stop_recording (rec_env env) 5 rs)])
                 (timer_stop (timer_manager a)) (selector a) (fps_var a)
                 (saved a) (root_alive a)
      else a
  | None => a
  end.

(** [root.destroy()], then the [finally] of [run] (lines 739-742). *)
Definition destroy (env : AppEnv) (a : App) : App :=
  mkApp (app_state a)
        (match recorder a with
         | Some rs => Some (snd (stop_recording (rec_env env) 5 rs))
         | None => None
         end)
        (abandoned a) (timer_manager a) (selector a) (fps_var a) (saved a)
        false.

(** [_on_closing] (lines 718-729); [confirm] is the answer to the
    question asked while recording. *)
Definition on_closing (env : AppEnv) (confirm : bool) (a : App) : App :=
  if is_recording a
  then if confirm then destroy env (app_stop_recording env a) else a
  else destroy env a.

(** What the user, Tk and the threads do. *)
Inductive AppEvent : Type :=
| EvScreenshot                      (* the button, or Control-s *)
| EvRecord                          (* the button, or Control-r *)
| EvChooseFps (f : Z)
| EvRelease (start_pos : option (Q * Q)) (end_pos : Q * Q)
            (name : string) (time : Q)
| EvCancel (time : Q)               (* Escape in the selector *)
| EvStop                            (* the stop button *)
| EvClose (confirm : bool)          (* the window is closed, or Control-q *)
| EvTick (id : nat) (time : Q)      (* Tk runs a callback of the timer *)
| EvThread (tid : nat)              (* a thread of the recorder takes a step *)
| EvOrphan (i tid : nat).           (* a thread of a recorder let go of does *)

Definition with_recorder (f : State -> State) (a : App) : App :=
  mkApp (app_state a) (f <$> recorder a) (abandoned a) (timer_manager a)
        (selector a) (fps_var a) (saved a) (root_alive a).

Definition with_timer (f : TimerManager -> TimerManager) (a : App) : App :=
  mkApp (app_state a) (recorder a) (abandoned a) (f (timer_manager a))
        (selector a) (fps_var a) (saved a) (root_alive a).

Definition with_abandoned (f : list State -> list State) (a : App) : App :=
  mkApp (app_state a) (recorder a) (f (abandoned a)) (timer_manager a)
        (selector a) (fps_var a) (saved a) (root_alive a).

(** Once the window is destroyed the event loop has ended: only threads
    still take steps. *)
Definition app_apply (env : AppEnv) (a : App) (ev : AppEvent) : App :=
  match ev with
  | EvThread tid => with_recorder (thread_step (rec_env env) tid) a
  | EvOrphan i tid => with_abandoned (alter (thread_step (rec_env env) tid) i) a
  | _ =>
      if negb (root_alive a) then a
      else
        match ev with
        | EvScreenshot => open_selector ForScreenshot a
        | EvRecord => open_selector ForRecording a
        | EvChooseFps f => choose_fps f a
        | EvRelease start_pos end_pos name time =>
            deliver env (on_release start_pos end_pos) name time a
        | EvCancel time => deliver env None EmptyString time a
        | EvStop => app_stop_recording env a
        | EvClose confirm => on_closing env confirm a
        | EvTick id time => with_timer (timer_fire id time) a
        | EvThread _ | EvOrphan _ _ => a
        end
  end.

Definition app_run (env : AppEnv) (evs : list AppEvent) (a : App) : App :=
  fold_left (app_apply env) evs a.

(** The clock never reads 0 when a recording starts. *)
Definition time_nonzero (ev : AppEvent) : Prop :=
  match ev with
  | EvRelease _ _ _ time => ~ (time == 0)%Q
  | _ => True
  end.

(** The thread did not die of an exception raised outside the [try]. *)
Definition not_crashed (th : Thread) : Prop :=
  match th with
  | Finished (Crashed _) _ => False
  | _ => True
  end.

(** The recorder is out of use: it has one thread at most, and it has been
    stopped and cleaned up, or its threads have finished. *)
Definition quiet (rs : State) : Prop :=
  (length (threads rs) <= 1)%nat /\
  (stopped rs \/ Forall (fun th => is_alive th = false) (threads rs)).

(** The recorder of the application: built for one of the frame rates of
    the box, with one thread at most, which calls [write] on the writer the
    recorder holds. *)
Definition recorder_ok (a : App) (rs : State) : Prop :=
  fps (self rs) ∈ fps_values /\
  Z.even (Region.width (region (self rs))) = true /\
  Z.even (Region.height (region (self rs))) = true /\
  10 <= Region.width (region (self rs)) /\
  10 <= Region.height (region (self rs)) /\
  Forall not_crashed (threads rs) /\
  targets_held rs /\
  if is_recording a
  then recording_thread (self rs) = Some 0%nat /\ length (threads rs) = 1%nat
  else recording_thread (self rs) = None /\ threads rs = [] /\
       writer (self rs) = None.

Record app_ok (a : App) : Prop := mkAppOk {
  ok_selecting : app_state a = SELECTING <-> selector a <> None;
  ok_recording : is_recording a = true -> recorder a <> None;
  ok_recorder : forall rs, recorder a = Some rs -> recorder_ok a rs;
  ok_timer : is_running (timer_manager a) = is_recording a;
  ok_fps : fps_var a ∈ fps_values
}.

(** ** A sample session of the application *)

Definition sample_app_env : AppEnv := mkAppEnv fast_env (fun _ => true).

(** Record, drag a region, let the thread run a cycle, let the timer tick. *)
Definition sample_session : list AppEvent :=
  [EvRecord; EvRelease (Some (120 # 1, 80 # 1)) (19 # 1, 25 # 2) "rec.mp4" (100 # 1);
   EvThread 0; EvThread 0; EvThread 0; EvThread 0; EvThread 0; EvTick 0 (101 # 1)].

(** The stop button between the test of the flag and the screenshot, with
    a [join] that comes back at once. *)
Definition hasty_app_env : AppEnv := mkAppEnv no_join_env (fun _ => true).

Definition interrupted_session : list AppEvent :=
  [EvRecord; EvRelease (Some (120 # 1, 80 # 1)) (19 # 1, 25 # 2) "rec.mp4" (100 # 1);
   EvThread 0; EvThread 0; EvStop].

(** * Region *)

Lemma new_ok_iff x y w h r :
  Region.new x y w h = Ok r <->
  0 < w /\ 0 < h /\ 0 <= x /\ 0 <= y /\ r = Region.mk x y w h.
Proof.
  unfold Region.new, Region.post_init; simpl.
  destruct (Z.leb_spec w 0), (Z.leb_spec h 0), (Z.ltb_spec x 0), (Z.ltb_spec y 0);
    simpl; split; intros Hr; try discriminate; try lia.
  - injection Hr as <-. repeat split; lia.
  - destruct Hr as (_ & _ & _ & _ & ->). reflexivity.
Qed.

Lemma new_raise_iff x y w h :
  (exists e, Region.new x y w h = Raise e) <-> w <= 0 \/ h <= 0 \/ x < 0 \/ y < 0.
Proof.
  unfold Region.new, Region.post_init; simpl.
  destruct (Z.leb_spec w 0), (Z.leb_spec h 0), (Z.ltb_spec x 0), (Z.ltb_spec y 0);
    simpl; split; intros Hr; eauto; try lia.
  destruct Hr as [e Hr]. discriminate.
Qed.

Lemma even_part (w : Z) :
  w - w mod 2 = (if Z.odd w then w - 1 else w) /\ Z.even (w - w mod 2) = true.
Proof.
  rewrite Zmod_odd. destruct (Z.odd w) eqn:E.
  - split; [reflexivity|]. rewrite Z.even_sub, <- Z.negb_odd, E. reflexivity.
  - split; [lia|]. rewrite Z.sub_0_r, <- Z.negb_odd, E. reflexivity.
Qed.

Lemma make_even_ok_iff (r r' : Region.t) :
  Region.make_even_dimensions r = Ok r' <->
  2 <= Region.width r /\ 2 <= Region.height r /\
  0 <= Region.x r /\ 0 <= Region.y r /\
  r' = Region.mk (Region.x r) (Region.y r)
         (Region.width r - Region.width r mod 2)
         (Region.height r - Region.height r mod 2).
Proof.
  unfold Region.make_even_dimensions. rewrite new_ok_iff.
  pose proof (Z.mod_pos_bound (Region.width r) 2 ltac:(lia)).
  pose proof (Z.mod_pos_bound (Region.height r) 2 ltac:(lia)).
  pose proof (Z.div_mod (Region.width r) 2 ltac:(lia)).
  pose proof (Z.div_mod (Region.height r) 2 ltac:(lia)).
  split; intros (? & ? & ? & ? & ?); repeat split; auto; lia.
Qed.

(** * The clock

    In the exact arithmetic of the model the busy wait always ends: the
    bound on its readings is never reached. *)

Lemma Qltb_lt (a b : Q) : Qltb a b = true <-> (a < b)%Q.
Proof.
  unfold Qltb. rewrite negb_true_iff, <- not_true_iff_false, Qle_bool_iff.
  split; [apply Qnot_le_lt | apply Qlt_not_le].
Qed.

Lemma Qltb_ge (a b : Q) : Qltb a b = false <-> (b <= a)%Q.
Proof.
  unfold Qltb. rewrite negb_false_iff, Qle_bool_iff. reflexivity.
Qed.

Lemma seconds_le (env : Env) (a b : Z) :
  a <= b -> (seconds env a <= seconds env b)%Q.
Proof.
  intros Hab. unfold seconds, Qle; simpl. nia.
Qed.

(** A duration is covered by its ticks. *)
Lemma ticks_of_covers (env : Env) (d : Q) :
  (d <= seconds env (ticks_of env d))%Q.
Proof.
  unfold ticks_of, seconds.
  pose proof (Qle_ceiling (d * inject_Z (Z.pos (resolution env)))) as Hc.
  set (n := Qceiling _) in *. clearbody n.
  destruct d as [p q]. unfold Qle, Qmult, inject_Z in *; simpl in *.
  nia.
Qed.

(** With enough readings the busy wait ends, at a time not before
    [end_time]. *)
Lemma spin_ends (env : Env) (end_time : Q) (fuel : nat) :
  forall c : Clock,
    ticks_of env end_time - now c <= Z.of_nat fuel ->
    exists c', spin env (S fuel) end_time c = Some c' /\
               (end_time <= seconds env (now c'))%Q /\
               now c < now c' /\ sleeps c' = sleeps c.
Proof.
  induction fuel as [|fuel IH]; intros c Hc.
  - cbn [spin perf_counter now]. 
    destruct (Qltb _ end_time) eqn:E.
    + apply Qltb_lt in E.
      pose proof (ticks_of_covers env end_time) as Ht.
      assert (Hs : (seconds env (ticks_of env end_time) <= seconds env (now c + 1))%Q)
        by (apply seconds_le; lia).
      lra.
    + apply Qltb_ge in E. eexists; repeat split; simpl; [assumption | lia].
  - cbn [spin perf_counter now].
    destruct (Qltb _ end_time) eqn:E.
    + destruct (IH (mkClock (now c + 1) (sleeps c))) as (c' & Hsp & Hle & Hlt & Hsl).
      { simpl. lia. }
      exists c'. simpl in *. repeat split; [exact Hsp | assumption | lia | assumption].
    + apply Qltb_ge in E. eexists; repeat split; simpl; [assumption | lia].
Qed.

Lemma busy_wait_spec (env : Env) (end_time : Q) (c : Clock) :
  spin env (spin_fuel env end_time c) end_time c = Some (busy_wait env end_time c) /\
  (end_time <= seconds env (now (busy_wait env end_time c)))%Q /\
  now c < now (busy_wait env end_time c) /\
  sleeps (busy_wait env end_time c) = sleeps c.
Proof.
  unfold busy_wait, spin_fuel.
  destruct (spin_ends env end_time (Z.to_nat (ticks_of env end_time - now c)) c)
    as (c' & -> & H); [lia | auto].
Qed.

(** * Preservation of the invariant *)

Lemma prepare_frame_ok (r : Region.t) (shape : Z * Z) (k : nat) :
  frame_ok r (prepare_frame r shape k).
Proof.
  unfold prepare_frame, frame_ok. cbn [cvtColor_RGB2BGR rows cols channels swap_order].
  destruct ((fst shape =? Region.height r) && (snd shape =? Region.width r)) eqn:E;
    cbn [negb resize rows cols channels fst snd].
  - apply andb_true_iff in E as [E1 E2].
    apply Z.eqb_eq in E1, E2. auto.
  - auto.
Qed.

Lemma writer_ok_write (r : Region.t) (f : Frame) (w : Writer) :
  frame_ok r f -> writer_ok r w -> writer_ok r (Writer_write f w).
Proof.
  intros Hf [Hsz Hfr]. unfold Writer_write.
  destruct (w_isOpened w); [|split; assumption].
  split; simpl; [assumption|].
  apply Forall_app; split; [assumption | constructor; [assumption | constructor]].
Qed.

Lemma writer_ok_release (r : Region.t) (w : Writer) :
  writer_ok r w -> writer_ok r (Writer_release w).
Proof. intros [Hsz Hfr]. split; assumption. Qed.

Lemma Inv_cleanup (r0 : VideoRecorder) (s : State) :
  Inv r0 s -> Inv r0 (cleanup s).
Proof.
  intros [Hr Hf Hn Hw Hc Ht]. unfold cleanup.
  destruct (writer (self s)); [|constructor; assumption].
  constructor; simpl; try assumption.
  apply Forall_alter; [assumption | intros w _; apply writer_ok_release].
Qed.

Lemma Inv_start_recording (env : Env) (r0 : VideoRecorder) (s : State) :
  Inv r0 s -> Inv r0 (snd (start_recording env s)).
Proof.
  intros HI. pose proof HI as [Hr Hf Hn Hw Hc Ht].
  assert (Hnew : Forall (writer_ok (region r0))
            (writers s ++
             [VideoWriter env (filename (self s)) (inject_Z (fps (self s)))
                (Region.width (region (self s)), Region.height (region (self s)))])).
  { apply Forall_app; split; [assumption|].
    constructor; [|constructor].
    split; simpl; [rewrite Hr; reflexivity | constructor]. }
  unfold start_recording, start_recording_try.
  destruct (negb (w_isOpened _)); cbn [snd].
  - apply Inv_cleanup. constructor; simpl; assumption.
  - constructor; simpl; try assumption.
    apply Forall_app; split; [assumption|]. repeat constructor.
Qed.

Lemma Inv_set_thread (r0 : VideoRecorder) (tid : nat) (th : Thread) (s : State) :
  Inv r0 s -> thread_ok r0 th ->
  Inv r0 (with_threads (fun ts => <[tid := th]> ts) s).
Proof.
  intros [Hr Hf Hn Hw Hc Ht] Hth. constructor; simpl; try assumption.
  apply Forall_insert; assumption.
Qed.

Lemma Inv_record_loop_enter (env : Env) (r0 : VideoRecorder) (s : State) :
  Inv r0 s ->
  Inv r0 (snd (record_loop_enter env s)) /\
  thread_ok r0 (fst (record_loop_enter env s)).
Proof.
  intros HI. pose proof HI as [Hr Hf Hn Hw Hc Ht].
  unfold record_loop_enter.
  destruct (Z.eqb_spec (fps (self s)) 0) as [E|E]; cbn [fst snd perf_counter].
  - split; [assumption | exact I].
  - split; [constructor; simpl; assumption|].
    simpl. rewrite Hf in *. auto.
Qed.

Lemma Inv_record_loop_step (env : Env) (r0 : VideoRecorder) (l : Loop) (s : State) :
  Inv r0 s -> thread_ok r0 (Running l) ->
  Inv r0 (snd (record_loop_step env l s)) /\
  thread_ok r0 (fst (record_loop_step env l s)).
Proof.
  intros HI (Hiv & Hfps & Hph). pose proof HI as [Hr Hf Hn Hw Hc Ht].
  assert (Hcap : Inv r0
    (with_captures (fun cs => cs ++ [Region.as_tuple (region (self s))])
       (with_clock (elapse (capture_ticks env (length (captures s)))) s))).
  { constructor; simpl; try assumption.
    apply Forall_app; split; [assumption|].
    constructor; [rewrite Hr; reflexivity | constructor]. }
  assert (Hwr : forall f wid, frame_ok (region r0) f -> Inv r0
    (with_writers (alter (Writer_write f) wid)
       (with_clock (elapse (write_ticks env (frame_count l))) s))).
  { intros f wid Hfr. constructor; simpl; try assumption.
    apply Forall_alter; [assumption|].
    intros w _. apply writer_ok_write. assumption. }
  unfold record_loop_step.
  destruct (phase l) as [| |f|f wid].
  - destruct (stop_event (self s)); cbn [fst snd]; [split; [assumption | exact I]|].
    split; [constructor; simpl; assumption|].
    cbn [thread_ok phase frame_interval]. auto.
  - destruct (screenshot env _ _) as [shape|e]; cbn [fst snd];
      (split; [exact Hcap|]); [|exact I].
    cbn [thread_ok phase frame_interval]. refine (conj Hiv (conj Hfps _)).
    rewrite Hr. apply prepare_frame_ok.
  - destruct (writer (self s)) as [wid|]; cbn [fst snd];
      (split; [assumption|]); [|exact I].
    cbn [thread_ok phase frame_interval]. auto.
  - specialize (Hwr f wid Hph).
    destruct (write_error env (frame_count l)); cbn [fst snd];
      [split; [assumption | exact I]|].
    destruct (pace env _ _ _) as [nft c] eqn:Hp. cbn [fst snd].
    split.
    + destruct Hwr. constructor; simpl in *; assumption.
    + simpl. auto.
Qed.

Lemma Inv_thread_step (env : Env) (r0 : VideoRecorder) (tid : nat) (s : State) :
  Inv r0 s -> Inv r0 (thread_step env tid s).
Proof.
  intros HI. unfold thread_step.
  destruct (threads s !! tid) as [[|l|o n]|] eqn:E; try assumption.
  - destruct (Inv_record_loop_enter env r0 s HI) as [H1 H2].
    destruct (record_loop_enter env s) as [th s']. 
    apply Inv_set_thread; assumption.
  - assert (Hth : thread_ok r0 (Running l)).
    { eapply Forall_lookup_1; [apply (inv_threads _ _ HI) | exact E]. }
    destruct (Inv_record_loop_step env r0 l s HI Hth) as [H1 H2].
    destruct (record_loop_step env l s) as [th s'].
    apply Inv_set_thread; assumption.
Qed.

Lemma Inv_iter_step (env : Env) (r0 : VideoRecorder) (tid n : nat) (s : State) :
  Inv r0 s -> Inv r0 (Nat.iter n (thread_step env tid) s).
Proof.
  intros HI. induction n as [|n IH]; simpl; [assumption|].
  apply Inv_thread_step. exact IH.
Qed.

Lemma Inv_stop_recording (env : Env) (r0 : VideoRecorder) (timeout : Q) (s : State) :
  Inv r0 s -> Inv r0 (snd (stop_recording env timeout s)).
Proof.
  intros HI. unfold stop_recording.
  destruct (recording_thread (self s)) as [tid|]; [|assumption].
  destruct (negb (thread_alive s tid)); [assumption|]. cbn [snd].
  apply Inv_cleanup. unfold join. apply Inv_iter_step.
  destruct HI. constructor; simpl; assumption.
Qed.

Lemma Inv_boot (r0 : VideoRecorder) : Inv r0 (boot r0).
Proof. constructor; simpl; try reflexivity; constructor. Qed.

Lemma reachable_Inv (env : Env) (r0 : VideoRecorder) (s : State) :
  reachable env r0 s -> Inv r0 s.
Proof.
  induction 1 as [|s _ IH|timeout s _ IH|tid s _ IH].
  - apply Inv_boot.
  - apply Inv_start_recording, IH.
  - apply Inv_stop_recording, IH.
  - apply Inv_thread_step, IH.
Qed.

(** * Releases *)

Lemma thread_step_self (env : Env) (tid : nat) (s : State) :
  self (thread_step env tid s) = self s.
Proof.
  unfold thread_step.
  destruct (threads s !! tid) as [[|l|o n]|]; try reflexivity.
  - unfold record_loop_enter. destruct (fps (self s) =? 0); reflexivity.
  - unfold record_loop_step. destruct (phase l).
    + destruct (stop_event (self s)); reflexivity.
    + destruct (screenshot env _ _); reflexivity.
    + destruct (writer (self s)); reflexivity.
    + destruct (write_error env _); [reflexivity|].
      destruct (pace env _ _ _). reflexivity.
Qed.

Lemma thread_step_writers (env : Env) (tid : nat) (s : State) :
  writers (thread_step env tid s) = writers s \/
  exists f wid, writers (thread_step env tid s) = alter (Writer_write f) wid (writers s).
Proof.
  unfold thread_step.
  destruct (threads s !! tid) as [[|l|o n]|]; auto.
  - unfold record_loop_enter. destruct (fps (self s) =? 0); auto.
  - unfold record_loop_step. destruct (phase l) as [| |f|f wid].
    + destruct (stop_event (self s)); auto.
    + destruct (screenshot env _ _); auto.
    + destruct (writer (self s)); auto.
    + right. exists f, wid.
      destruct (write_error env _); [reflexivity|].
      destruct (pace env _ _ _). reflexivity.
Qed.

Lemma Writer_write_releases (f : Frame) (w : Writer) :
  w_releases (Writer_write f w) = w_releases w.
Proof. unfold Writer_write. destruct (w_isOpened w); reflexivity. Qed.

Lemma release_ok_thread_step (env : Env) (tid : nat) (s : State) :
  release_ok s -> release_ok (thread_step env tid s).
Proof.
  intros [Hall Hheld]. unfold release_ok. rewrite thread_step_self.
  destruct (thread_step_writers env tid s) as [->|(f & wid & ->)]; [split; assumption|].
  split.
  - apply Forall_alter; [assumption|].
    intros w _ Hw. rewrite Writer_write_releases. exact Hw.
  - intros wid' Hself. destruct (Hheld wid' Hself) as (w & Hw & H0).
    rewrite list_lookup_alter. destruct (decide (wid = wid')) as [->|_].
    + rewrite Hw. eexists; split; [reflexivity|].
      rewrite Writer_write_releases. exact H0.
    + eauto.
Qed.

Lemma release_ok_cleanup (s : State) : release_ok s -> release_ok (cleanup s).
Proof.
  intros [Hall Hheld]. unfold cleanup.
  destruct (writer (self s)) as [wid|] eqn:E;
    [|split; [assumption | intros wid; rewrite E; discriminate]].
  destruct (Hheld wid eq_refl) as (w & Hw & H0).
  split; simpl.
  - apply Forall_alter; [assumption|].
    intros w' Hw' _. rewrite Hw in Hw'. injection Hw' as <-. simpl. lia.
  - intros wid' Hd. discriminate.
Qed.

Lemma release_ok_start_recording (env : Env) (s : State) :
  release_ok s -> release_ok (snd (start_recording env s)).
Proof.
  intros [Hall Hheld].
  set (w := VideoWriter env (filename (self s)) (inject_Z (fps (self s)))
              (Region.width (region (self s)), Region.height (region (self s)))).
  assert (Hall' : Forall (fun w => (w_releases w <= 1)%nat) (writers s ++ [w])).
  { apply Forall_app; split; [assumption|]. constructor; [simpl; lia | constructor]. }
  assert (Hnew : (writers s ++ [w]) !! length (writers s) = Some w).
  { rewrite lookup_app_r by lia. rewrite Nat.sub_diag. reflexivity. }
  unfold start_recording, start_recording_try. fold w.
  destruct (negb (w_isOpened w)); cbn [snd].
  - apply release_ok_cleanup. split; simpl; [assumption|].
    intros wid [= <-]. eauto.
  - split; simpl; [assumption|].
    intros wid [= <-]. eauto.
Qed.

Lemma release_ok_stop_recording (env : Env) (timeout : Q) (s : State) :
  release_ok s -> release_ok (snd (stop_recording env timeout s)).
Proof.
  intros Hs. unfold stop_recording.
  destruct (recording_thread (self s)) as [tid|]; [|assumption].
  destruct (negb (thread_alive s tid)); [assumption|]. cbn [snd].
  apply release_ok_cleanup. unfold join.
  induction (join_steps env timeout) as [|n IH]; simpl.
  - destruct Hs. split; assumption.
  - apply release_ok_thread_step, IH.
Qed.

(** No writer is ever released twice, and the writer the recorder holds
    has not been released. *)
Lemma reachable_release_ok (env : Env) (r0 : VideoRecorder) (s : State) :
  writer r0 = None -> reachable env r0 s -> release_ok s.
Proof.
  intros Hw. induction 1 as [|s _ IH|timeout s _ IH|tid s _ IH].
  - split; simpl; [constructor|]. intros wid Hd. congruence.
  - apply release_ok_start_recording, IH.
  - apply release_ok_stop_recording, IH.
  - apply release_ok_thread_step, IH.
Qed.

(** * Steps of the loop *)

Lemma thread_step_running (env : Env) (tid : nat) (l : Loop) (s : State) :
  threads s !! tid = Some (Running l) ->
  thread_step env tid s =
    with_threads (fun ts => <[tid := fst (record_loop_step env l s)]> ts)
      (snd (record_loop_step env l s)).
Proof.
  intros Ht. unfold thread_step. rewrite Ht.
  destruct (record_loop_step env l s). reflexivity.
Qed.

Lemma record_loop_step_threads (env : Env) (l : Loop) (s : State) :
  threads (snd (record_loop_step env l s)) = threads s.
Proof.
  unfold record_loop_step. destruct (phase l).
  - destruct (stop_event (self s)); reflexivity.
  - destruct (screenshot env _ _); reflexivity.
  - destruct (writer (self s)); reflexivity.
  - destruct (write_error env _); [reflexivity|].
    destruct (pace env _ _ _). reflexivity.
Qed.

Lemma thread_step_lookup_running (env : Env) (tid : nat) (l : Loop) (s : State) :
  threads s !! tid = Some (Running l) ->
  threads (thread_step env tid s) !! tid = Some (fst (record_loop_step env l s)).
Proof.
  intros Ht. rewrite (thread_step_running env tid l s Ht). simpl.
  apply list_lookup_insert_eq. rewrite record_loop_step_threads.
  eapply lookup_lt_Some. exact Ht.
Qed.

Lemma thread_step_lookup_entering (env : Env) (tid : nat) (s : State) :
  threads s !! tid = Some Entering ->
  threads (thread_step env tid s) !! tid = Some (fst (record_loop_enter env s)).
Proof.
  intros Ht. unfold thread_step. rewrite Ht.
  assert (Hth : threads (snd (record_loop_enter env s)) = threads s).
  { unfold record_loop_enter. destruct (fps (self s) =? 0); reflexivity. }
  destruct (record_loop_enter env s) as [th s']. simpl in *.
  apply list_lookup_insert_eq. rewrite Hth. eapply lookup_lt_Some. exact Ht.
Qed.

(** With the flag set every step brings a thread closer to its end. *)
Lemma step_towards_end (env : Env) (tid : nat) (th : Thread) (s : State) :
  stop_event (self s) = true ->
  threads s !! tid = Some th ->
  exists th', threads (thread_step env tid s) !! tid = Some th' /\
              (steps_left th' <= Nat.pred (steps_left th))%nat.
Proof.
  intros Hstop Ht. destruct th as [|l|o n].
  - rewrite (thread_step_lookup_entering env tid s Ht).
    eexists; split; [reflexivity|]. unfold record_loop_enter.
    destruct (fps (self s) =? 0); simpl; lia.
  - rewrite (thread_step_lookup_running env tid l s Ht).
    eexists; split; [reflexivity|]. unfold record_loop_step, steps_left at 2.
    destruct (phase l) as [| |f|f wid].
    + rewrite Hstop. simpl. lia.
    + destruct (screenshot env _ _); simpl; lia.
    + destruct (writer (self s)); simpl; lia.
    + destruct (write_error env _); [simpl; lia|].
      destruct (pace env _ _ _). simpl. lia.
  - unfold thread_step. rewrite Ht. eexists; split; [exact Ht|]. simpl. lia.
Qed.

Lemma iter_step_towards_end (env : Env) (tid : nat) (th : Thread) (n : nat)
  (s : State) :
  stop_event (self s) = true ->
  threads s !! tid = Some th ->
  exists th', threads (Nat.iter n (thread_step env tid) s) !! tid = Some th' /\
              (steps_left th' <= steps_left th - n)%nat.
Proof.
  intros Hstop Ht. induction n as [|n (th1 & H1 & Hle)]; simpl.
  - exists th. split; [exact Ht | lia].
  - assert (Hs : stop_event (self (Nat.iter n (thread_step env tid) s)) = true).
    { clear H1 Hle. induction n as [|n IH]; simpl; [exact Hstop|].
      rewrite thread_step_self. exact IH. }
    destruct (step_towards_end env tid th1 _ Hs H1) as (th2 & H2 & Hle2).
    exists th2. split; [exact H2 | lia].
Qed.

Lemma steps_left_bound (th : Thread) : (steps_left th <= 4)%nat.
Proof. destruct th as [|l|o n]; simpl; [lia | destruct (phase l); lia | lia]. Qed.

Lemma steps_left_zero (th : Thread) : steps_left th = 0%nat -> is_alive th = false.
Proof.
  destruct th as [|l|o n]; simpl; [discriminate | destruct (phase l); discriminate | reflexivity].
Qed.

(** With the flag set, a thread that exists has finished after four steps,
    and stays so. *)
Lemma iter_step_finished (env : Env) (tid : nat) (th : Thread) (n : nat) (s : State) :
  stop_event (self s) = true ->
  threads s !! tid = Some th ->
  (4 <= n)%nat ->
  thread_alive (Nat.iter n (thread_step env tid) s) tid = false.
Proof.
  intros Hstop Ht Hn.
  destruct (iter_step_towards_end env tid th n s Hstop Ht) as (th' & H' & Hle).
  unfold thread_alive. rewrite H'. apply steps_left_zero.
  pose proof (steps_left_bound th). lia.
Qed.

(** * The claims *)

(** C3. [Region(x, y, width, height)] raises exactly when [width <= 0],
    [height <= 0], [x < 0] or [y < 0]; otherwise it returns a region whose
    four fields are the arguments. *)
Theorem C3_region_construction (x y w h : Z) :
  ((exists e, Region.new x y w h = Raise e) <->
     w <= 0 \/ h <= 0 \/ x < 0 \/ y < 0) /\
  (is_ok (Region.new x y w h) = true <->
     ~ (w <= 0 \/ h <= 0 \/ x < 0 \/ y < 0)) /\
  (forall r, Region.new x y w h = Ok r ->
     Region.x r = x /\ Region.y r = y /\
     Region.width r = w /\ Region.height r = h).
Proof.
  split; [apply new_raise_iff|]. split.
  - destruct (Region.new x y w h) as [r|e] eqn:E; simpl.
    + apply new_ok_iff in E. split; [lia | reflexivity].
    + assert (Hr : exists e, Region.new x y w h = Raise e) by eauto.
      apply new_raise_iff in Hr. split; [discriminate | tauto].
  - intros r Hr. apply new_ok_iff in Hr as (_ & _ & _ & _ & ->). auto.
Qed.

Lemma C3_region_construction_witness :
  Region.new 10 10 101 51 = Ok sample_region /\
  ((exists e, Region.new 10 10 0 51 = Raise e) <->
     0 <= 0 \/ 51 <= 0 \/ 10 < 0 \/ 10 < 0).
Proof.
  split; [reflexivity|].
  exact (proj1 (C3_region_construction 10 10 0 51)).
Defined.

(** C2, as the code has it.  For every validly constructed Region whose
    width and height are at least 2, [make_even_dimensions] returns a Region
    with the same x and y, whose width and height are the original ones
    decremented by 1 if odd and unchanged if even: even, positive, and at
    most the original. *)
Theorem C2_make_even_dimensions (x y w h : Z) (r : Region.t) :
  Region.new x y w h = Ok r -> 2 <= w -> 2 <= h ->
  exists r',
    Region.make_even_dimensions r = Ok r' /\
    Region.x r' = x /\ Region.y r' = y /\
    Region.width r' = (if Z.odd w then w - 1 else w) /\
    Region.height r' = (if Z.odd h then h - 1 else h) /\
    Z.even (Region.width r') = true /\ Z.even (Region.height r') = true /\
    0 < Region.width r' <= w /\ 0 < Region.height r' <= h.
Proof.
  intros Hr Hw Hh. apply new_ok_iff in Hr as (_ & _ & Hx & Hy & ->).
  eexists. split.
  - apply make_even_ok_iff. simpl. repeat split; try lia. 
  - simpl. destruct (even_part w) as [Hw1 Hw2], (even_part h) as [Hh1 Hh2].
    repeat split; try assumption; rewrite ?Hw1, ?Hh1;
      destruct (Z.odd w), (Z.odd h); lia.
Qed.

Lemma C2_make_even_dimensions_witness :
  exists r',
    Region.make_even_dimensions sample_region = Ok r' /\
    Region.x r' = 10 /\ Region.y r' = 10 /\
    Region.width r' = 100 /\ Region.height r' = 50 /\
    Z.even (Region.width r') = true /\ Z.even (Region.height r') = true /\
    0 < Region.width r' <= 101 /\ 0 < Region.height r' <= 51.
Proof.
  apply (C2_make_even_dimensions 10 10 101 51 sample_region);
    [reflexivity | lia | lia].
Defined.

(** C2, as the specification words it, fails: a valid Region of width 1
    makes [make_even_dimensions] raise. *)
Lemma C2_counterexample :
  Region.new 10 10 1 51 = Ok (Region.mk 10 10 1 51) /\
  Region.make_even_dimensions (Region.mk 10 10 1 51) =
    Raise (ValueError "Width and height must be positive").
Proof. split; reflexivity. Qed.

(** C10. On a validly constructed Region, [make_even_dimensions] raises
    when the width or the height is 1 (the decremented dimension 0 fails the
    positivity check of the constructor), and returns normally when both
    are at least 2. *)
Theorem C10_make_even_dimensions_raises (x y w h : Z) (r : Region.t) :
  Region.new x y w h = Ok r ->
  (w = 1 \/ h = 1 ->
     Region.make_even_dimensions r =
       Raise (ValueError "Width and height must be positive")) /\
  (2 <= w /\ 2 <= h -> is_ok (Region.make_even_dimensions r) = true).
Proof.
  intros Hr. apply new_ok_iff in Hr as (Hw & Hh & Hx & Hy & ->). split.
  - intros H1. unfold Region.make_even_dimensions, Region.new, Region.post_init.
    simpl.
    assert (E : (w - w mod 2 <=? 0) || (h - h mod 2 <=? 0) = true).
    { apply orb_true_iff. destruct H1 as [-> | ->]; [left | right]; reflexivity. }
    rewrite E. reflexivity.
  - intros [H2w H2h].
    destruct (Region.make_even_dimensions (Region.mk x y w h)) as [r'|e] eqn:E;
      [reflexivity|].
    assert (Hok : Region.make_even_dimensions (Region.mk x y w h) =
                  Ok (Region.mk x y (w - w mod 2) (h - h mod 2))).
    { apply make_even_ok_iff. simpl. auto. }
    congruence.
Qed.

Lemma C10_make_even_dimensions_raises_witness :
  (1 = 1 \/ 51 = 1 ->
     Region.make_even_dimensions (Region.mk 10 10 1 51) =
       Raise (ValueError "Width and height must be positive")) /\
  (2 <= 1 /\ 2 <= 51 ->
     is_ok (Region.make_even_dimensions (Region.mk 10 10 1 51)) = true).
Proof.
  apply (C10_make_even_dimensions_raises 10 10 1 51 (Region.mk 10 10 1 51)).
  reflexivity.
Defined.

(** C7. [stop_recording] on a recorder whose thread is not running (never
    started, or finished) returns [True] and changes nothing: no exception,
    no release. *)
Theorem C7_stop_when_not_running (env : Env) (timeout : Q) (s : State) :
  (recording_thread (self s) = None \/
   exists tid, recording_thread (self s) = Some tid /\ thread_alive s tid = false) ->
  stop_recording env timeout s = (true, s).
Proof.
  intros [Hn | (tid & Ht & Ha)]; unfold stop_recording.
  - rewrite Hn. reflexivity.
  - rewrite Ht, Ha. reflexivity.
Qed.

Lemma C7_stop_when_not_running_witness :
  stop_recording fast_env 5 (boot sample_recorder) = (true, boot sample_recorder).
Proof.
  apply (C7_stop_when_not_running fast_env 5 (boot sample_recorder)).
  left. reflexivity.
Defined.

(** C6. [start_recording] returns before the loop has run.  When the
    writer does not open it returns [False]: no thread is created, nothing
    is captured or written, the recorder's thread field is what it was, and
    the writer that was built has been released and is no longer held.  When
    the writer opens it returns [True] with the new thread started but not
    yet run. *)
Theorem C6_start_is_synchronous (env : Env) (s : State) :
  let w := VideoWriter env (filename (self s)) (inject_Z (fps (self s)))
             (Region.width (region (self s)), Region.height (region (self s))) in
  let s' := snd (start_recording env s) in
  (w_isOpened w = false ->
     fst (start_recording env s) = false /\
     threads s' = threads s /\
     recording_thread (self s') = recording_thread (self s) /\
     captures s' = captures s /\
     clock s' = clock s /\
     writer (self s') = None /\
     writers s' = writers s ++ [Writer_release w] /\
     w_written (Writer_release w) = [] /\
     w_releases (Writer_release w) = 1%nat) /\
  (w_isOpened w = true ->
     fst (start_recording env s) = true /\
     threads s' = threads s ++ [Entering] /\
     recording_thread (self s') = Some (length (threads s)) /\
     captures s' = captures s /\
     clock s' = clock s /\
     writer (self s') = Some (length (writers s)) /\
     writers s' = writers s ++ [w] /\
     w_written w = []).
Proof.
  intros w s'. subst s'. unfold start_recording, start_recording_try. fold w.
  split; intros Ho; rewrite Ho; cbn [negb fst snd].
  - unfold cleanup. cbn [with_self with_writers self writer set_writer writers].
    repeat split.
    cbn [threads clock captures with_self with_writers].
    pose proof (alter_app_r Writer_release (writers s) [w] 0) as Ha.
    rewrite Nat.add_0_r in Ha. rewrite Ha. reflexivity.
  - repeat split.
Qed.

Lemma C6_start_is_synchronous_witness :
  fst (start_recording no_open_env (boot sample_recorder)) = false /\
  threads (started no_open_env) = [] /\
  recording_thread (self (started no_open_env)) = None /\
  captures (started no_open_env) = [] /\
  clock (started no_open_env) = mkClock 0 0 /\
  writer (self (started no_open_env)) = None /\
  writers (started no_open_env) =
    [mkWriter "out.mp4" (inject_Z 30) (100, 50) false [] 1] /\
  @nil Frame = [] /\
  1%nat = 1%nat.
Proof.
  exact (proj1 (C6_start_is_synchronous no_open_env (boot sample_recorder)) eq_refl).
Defined.

(** C8. Every frame handed to a writer has gone through the RGB-to-BGR
    conversion and has exactly [height] rows and [width] columns of the
    recorder's region: a screenshot of any other shape is resized first. *)
Theorem C8_frames_converted_and_sized (env : Env) (r0 : VideoRecorder) (s : State) :
  reachable env r0 s ->
  (forall shape k,
     prepare_frame (region r0) shape k =
       mkFrame (Region.height (region r0)) (Region.width (region r0)) BGR k) /\
  Forall (fun w => Forall (frame_ok (region (self s))) (w_written w)) (writers s).
Proof.
  intros Hs. split.
  - intros shape k. destruct (prepare_frame_ok (region r0) shape k) as (H1 & H2 & H3).
    destruct (prepare_frame (region r0) shape k) as [a b c d] eqn:E.
    simpl in *. subst.
    assert (Hp : pixels (prepare_frame (region r0) shape k) = k).
    { unfold prepare_frame. destruct (negb _); reflexivity. }
    rewrite E in Hp. simpl in Hp. subst. reflexivity.
  - destruct (reachable_Inv env r0 s Hs) as [Hr _ _ Hw _ _]. rewrite Hr.
    eapply Forall_impl; [|exact Hw]. intros w [_ Hf]. exact Hf.
Qed.

Lemma C8_frames_converted_and_sized_witness :
  Forall (fun w => Forall (frame_ok (region (self (one_cycle fast_env)))) (w_written w))
    (writers (one_cycle fast_env)) /\
  map w_written (writers (one_cycle fast_env)) = [[mkFrame 50 100 BGR 0]].
Proof.
  split; [|reflexivity].
  apply (C8_frames_converted_and_sized fast_env sample_recorder (one_cycle fast_env)).
  unfold one_cycle, captured, started.
  apply reach_step, reach_step, reach_step, reach_step, reach_step,
    reach_start, reach_boot.
Defined.

(** C9. The recorder keeps the region normalised to even dimensions, not
    the one it was given, and that region is what it uses.  Its width and
    height are even.  Every writer has it as frame size and every
    screenshot as rectangle; and these are made: [start_recording] builds
    one more writer, with that frame size, the recorder's file name and
    frame rate, and the step of the loop that follows the test of the flag
    asks for one more screenshot, of that rectangle. *)
Theorem C9_normalised_region_used (env : Env) (original : Region.t) (f : Z)
  (name : string) (r0 : VideoRecorder) (s : State) :
  VideoRecorder_init original f name = Ok r0 ->
  reachable env r0 s ->
  Region.make_even_dimensions original = Ok (region (self s)) /\
  Z.even (Region.width (region (self s))) = true /\
  Z.even (Region.height (region (self s))) = true /\
  Forall (fun w => w_frameSize w =
                   (Region.width (region (self s)), Region.height (region (self s))))
         (writers s) /\
  Forall (fun c => c = Region.as_tuple (region (self s))) (captures s) /\
  (exists w,
     writers (snd (start_recording env s)) = writers s ++ [w] /\
     w_frameSize w =
       (Region.width (region (self s)), Region.height (region (self s))) /\
     w_filename w = name /\ w_fps w = inject_Z f /\
     (fst (start_recording env s) = true ->
        writer (self (snd (start_recording env s))) = Some (length (writers s)) /\
        w_isOpened w = true)) /\
  (forall tid l,
     threads s !! tid = Some (Running l) -> phase l = AtCapture ->
     captures (thread_step env tid s) =
       captures s ++ [Region.as_tuple (region (self s))]).
Proof.
  intros Hinit Hs. destruct (reachable_Inv env r0 s Hs) as [Hr Hfp Hnm Hw Hc _].
  unfold VideoRecorder_init in Hinit.
  destruct (Region.make_even_dimensions original) as [r|e] eqn:E; [|discriminate].
  injection Hinit as <-. cbn [region fps filename] in *.
  apply make_even_ok_iff in E as (_ & _ & _ & _ & E).
  split; [rewrite Hr, E; reflexivity|].
  split; [rewrite Hr, E; apply even_part|].
  split; [rewrite Hr, E; apply even_part|].
  split; [rewrite Hr; eapply Forall_impl; [|exact Hw]; intros w [Hf _]; exact Hf|].
  split; [rewrite Hr; assumption|].
  split.
  - unfold start_recording, start_recording_try.
    set (w := VideoWriter env (filename (self s)) (inject_Z (fps (self s)))
                (Region.width (region (self s)), Region.height (region (self s)))).
    assert (Hsz : w_frameSize w =
                  (Region.width (region (self s)), Region.height (region (self s))))
      by reflexivity.
    assert (Hwn : w_filename w = name) by (rewrite <- Hnm; reflexivity).
    assert (Hwf : w_fps w = inject_Z f) by (rewrite <- Hfp; reflexivity).
    destruct (w_isOpened w) eqn:Ho; cbn [negb fst snd].
    + exists w. split; [reflexivity|]. split; [exact Hsz|].
      split; [exact Hwn|]. split; [exact Hwf|].
      intros _. split; [reflexivity | exact Ho].
    + exists (Writer_release w). unfold cleanup.
      cbn [writers with_self with_writers self writer set_writer].
      pose proof (alter_app_r Writer_release (writers s) [w] 0) as Ha.
      rewrite Nat.add_0_r in Ha. rewrite Ha.
      split; [reflexivity|]. split; [exact Hsz|].
      split; [exact Hwn|]. split; [exact Hwf|].
      discriminate.
  - intros tid l Ht Hp. rewrite (thread_step_running env tid l s Ht).
    unfold record_loop_step. rewrite Hp.
    destruct (screenshot env _ _); reflexivity.
Qed.

Lemma C9_normalised_region_used_witness :
  (exists w, writers (started fast_env) = [] ++ [w] /\ w_frameSize w = (100, 50)) /\
  captures (captured fast_env) = [] ++ [(10, 10, 100, 50)] /\
  map w_frameSize (writers (one_cycle fast_env)) = [(100, 50)] /\
  captures (one_cycle fast_env) = [(10, 10, 100, 50)] /\
  Region.make_even_dimensions sample_region = Ok (region (self (one_cycle fast_env))).
Proof.
  split; [|split; [|split; [reflexivity | split; [reflexivity|]]]].
  - destruct (C9_normalised_region_used fast_env sample_region 30 "out.mp4"
                sample_recorder (boot sample_recorder) eq_refl
                (reach_boot fast_env sample_recorder))
      as (_ & _ & _ & _ & _ & (w & Hw & Hsz & _) & _).
    exists w. split; [exact Hw | exact Hsz].
  - assert (Hr : reachable fast_env sample_recorder
                   (thread_step fast_env 0 (thread_step fast_env 0 (started fast_env))))
      by (unfold started; apply reach_step, reach_step, reach_start, reach_boot).
    destruct (C9_normalised_region_used fast_env sample_region 30 "out.mp4"
                sample_recorder _ eq_refl Hr) as (_ & _ & _ & _ & _ & _ & Hcap).
    exact (Hcap 0%nat (mkLoop (1 / inject_Z 30) (seconds fast_env 1) 0 AtCapture)
             eq_refl eq_refl).
  - apply (C9_normalised_region_used fast_env sample_region 30 "out.mp4"
             sample_recorder (one_cycle fast_env) eq_refl).
    unfold one_cycle, captured, started.
    apply reach_step, reach_step, reach_step, reach_step, reach_step,
      reach_start, reach_boot.
Defined.

(** C5. The loop tests [stop_event] at the top of a cycle, and only
    there.  At the top of a cycle with the flag set the thread leaves the
    loop ([StoppedCleanly]) and nothing else changes: no screenshot, no
    write.  With the flag clear it goes on to the screenshot, which it then
    takes.  The rest of the cycle (screenshot, read of [self.writer], write
    and pacing) runs the same whatever the flag is.  Once the flag is set
    the thread has finished after four steps at most: the three that end
    the cycle it is in, and the test. *)
Theorem C5_cancellation_at_top_of_cycle (env : Env) (tid : nat) (l : Loop)
  (s : State) :
  threads s !! tid = Some (Running l) ->
  (phase l = AtTop -> stop_event (self s) = true ->
     thread_step env tid s =
       with_threads
         (fun ts => <[tid := Finished StoppedCleanly (frame_count l)]> ts) s) /\
  (phase l = AtTop -> stop_event (self s) = false ->
     thread_step env tid s =
       with_threads
         (fun ts => <[tid := Running (mkLoop (frame_interval l) (next_frame_time l)
                                        (frame_count l) AtCapture)]> ts)
         (with_clock (fun c => snd (perf_counter env c)) s)) /\
  (phase l = AtCapture ->
     captures (thread_step env tid s) =
       captures s ++ [Region.as_tuple (region (self s))]) /\
  (forall b, phase l <> AtTop ->
     thread_step env tid (with_self (set_stop_event b) s) =
       with_self (set_stop_event b) (thread_step env tid s)) /\
  (stop_event (self s) = true ->
     thread_alive (Nat.iter 4 (thread_step env tid) s) tid = false).
Proof.
  intros Ht. split; [|split; [|split; [|split]]].
  - intros Hp Hstop. rewrite (thread_step_running env tid l s Ht).
    unfold record_loop_step. rewrite Hp, Hstop. reflexivity.
  - intros Hp Hstop. rewrite (thread_step_running env tid l s Ht).
    unfold record_loop_step. rewrite Hp, Hstop. reflexivity.
  - intros Hp. rewrite (thread_step_running env tid l s Ht).
    unfold record_loop_step. rewrite Hp.
    destruct (screenshot env _ _); reflexivity.
  - intros b Hp.
    assert (Ht' : threads (with_self (set_stop_event b) s) !! tid = Some (Running l))
      by exact Ht.
    rewrite (thread_step_running env tid l s Ht).
    rewrite (thread_step_running env tid l _ Ht').
    unfold record_loop_step. destruct (phase l) as [| |f|f wid]; simpl.
    + contradiction Hp; reflexivity.
    + destruct (screenshot env _ _); reflexivity.
    + destruct (writer (self s)); reflexivity.
    + destruct (write_error env _); [reflexivity|].
      destruct (pace env _ _ _). reflexivity.
  - intros Hstop. apply (iter_step_finished env tid (Running l) 4 s Hstop Ht).
    lia.
Qed.

Lemma C5_cancellation_at_top_of_cycle_witness :
  thread_alive
    (Nat.iter 4 (thread_step fast_env 0)
       (with_self (set_stop_event true) (captured fast_env)))
    0 = false.
Proof.
  refine (proj2 (proj2 (proj2 (proj2
    (C5_cancellation_at_top_of_cycle fast_env 0
       (mkLoop (1 / inject_Z 30) (seconds fast_env 1) 0 (AtWrite (mkFrame 50 100 BGR 0)))
       (with_self (set_stop_event true) (captured fast_env)) _)))) _);
    reflexivity.
Defined.

(** C1. The claim: whenever the capture loop terminates, by cancellation,
    by a capture failure or by an encode failure, the writer is released
    exactly once.  The code does so on cancellation, where [stop_recording]
    finds the thread alive and ends in [_cleanup].  When the loop has
    ended by itself on a failed screenshot or a failed write, the
    [finally] of [_record_loop] only logs, and [stop_recording] returns
    [True] at its first test without reaching [_cleanup]: the writer is
    still held, still open, and has never been released. *)
Theorem C1_writer_left_open_after_loop_failure :
  (* a screenshot raises *)
  (fst (start_recording capture_fails_env (boot sample_recorder)) = true /\
   threads (captured capture_fails_env) = [Finished (Failed (ExternalError 1)) 0] /\
   stop_recording capture_fails_env 5 (captured capture_fails_env) =
     (true, captured capture_fails_env) /\
   writer (self (captured capture_fails_env)) = Some 0%nat /\
   map w_isOpened (writers (captured capture_fails_env)) = [true] /\
   map w_releases (writers (captured capture_fails_env)) = [0%nat]) /\
  (* a write raises *)
  (fst (start_recording write_fails_env (boot sample_recorder)) = true /\
   threads (one_cycle write_fails_env) = [Finished (Failed (ExternalError 2)) 0] /\
   stop_recording write_fails_env 5 (one_cycle write_fails_env) =
     (true, one_cycle write_fails_env) /\
   writer (self (one_cycle write_fails_env)) = Some 0%nat /\
   map w_isOpened (writers (one_cycle write_fails_env)) = [true] /\
   map w_releases (writers (one_cycle write_fails_env)) = [0%nat]) /\
  (* cancellation *)
  (fst (stop_recording fast_env 5 (one_cycle fast_env)) = true /\
   threads (snd (stop_recording fast_env 5 (one_cycle fast_env))) =
     [Finished StoppedCleanly 1] /\
   writer (self (snd (stop_recording fast_env 5 (one_cycle fast_env)))) = None /\
   map w_releases (writers (snd (stop_recording fast_env 5 (one_cycle fast_env)))) =
     [1%nat]).
Proof.
  repeat match goal with |- _ /\ _ => split end; vm_compute; reflexivity.
Qed.

(** * Further properties of the recorder *)

Lemma iter_step_self (env : Env) (tid n : nat) (s : State) :
  self (Nat.iter n (thread_step env tid) s) = self s.
Proof.
  induction n as [|n IH]; simpl; [reflexivity|].
  rewrite thread_step_self. exact IH.
Qed.

Lemma cleanup_threads (s : State) : threads (cleanup s) = threads s.
Proof. unfold cleanup. destruct (writer (self s)); reflexivity. Qed.

Lemma cleanup_self (s : State) :
  writer (self (cleanup s)) = None /\
  stop_event (self (cleanup s)) = stop_event (self s).
Proof.
  unfold cleanup. destruct (writer (self s)) eqn:E; simpl; auto.
Qed.

Lemma Writer_write_isOpened (f : Frame) (w : Writer) :
  w_isOpened (Writer_write f w) = w_isOpened w.
Proof. unfold Writer_write. destruct (w_isOpened w) eqn:E; [reflexivity | exact E]. Qed.

(** [write] on a writer that is not open changes nothing. *)
Lemma alter_write_closed (f : Frame) (wid : nat) (s : State) :
  closed_at s wid -> alter (Writer_write f) wid (writers s) = writers s.
Proof.
  unfold closed_at. intros Hc. apply list_eq. intros j.
  rewrite list_lookup_alter. destruct (decide (wid = j)) as [->|_]; [|reflexivity].
  destruct (writers s !! j) as [w|]; [|reflexivity].
  simpl. unfold Writer_write. rewrite Hc. reflexivity.
Qed.

Lemma closed_at_alter_write (f : Frame) (i wid : nat) (s s' : State) :
  writers s' = alter (Writer_write f) i (writers s) ->
  closed_at s wid -> closed_at s' wid.
Proof.
  unfold closed_at. intros -> Hc. rewrite list_lookup_alter.
  destruct (decide (i = wid)) as [->|_]; [|exact Hc].
  destruct (writers s !! wid) as [w|]; [|exact I].
  simpl. rewrite Writer_write_isOpened. exact Hc.
Qed.

Lemma count_capturing_insert (ts : list Thread) (tid : nat) (th th' : Thread) :
  ts !! tid = Some th ->
  (count_capturing (<[tid := th']> ts) + capturing th =
   count_capturing ts + capturing th')%nat.
Proof.
  revert tid. induction ts as [|t ts IH]; intros tid Hl; [discriminate|].
  destruct tid as [|tid]; simpl in *.
  - injection Hl as ->. lia.
  - specialize (IH tid Hl). lia.
Qed.

Lemma count_capturing_le (ts : list Thread) :
  (count_capturing ts <= length ts)%nat.
Proof.
  induction ts as [|t ts IH]; simpl; [lia|].
  assert (capturing t <= 1)%nat; [|lia].
  destruct t as [|l|o n]; simpl; [lia | destruct (phase l); lia | lia].
Qed.

(** What a step of a thread changes. *)
Lemma thread_step_effect (env : Env) (tid : nat) (s : State) :
  thread_step env tid s = s \/
  exists th th' extra,
    threads s !! tid = Some th /\
    threads (thread_step env tid s) = <[tid := th']> (threads s) /\
    (forall wid, write_target th' = Some wid -> writer (self s) = Some wid) /\
    captures (thread_step env tid s) = captures s ++ extra /\
    (stop_event (self s) = true ->
       (length extra + capturing th' = capturing th)%nat) /\
    (writers (thread_step env tid s) = writers s \/
     exists f wid,
       write_target th = Some wid /\
       writers (thread_step env tid s) = alter (Writer_write f) wid (writers s)).
Proof.
  unfold thread_step.
  destruct (threads s !! tid) as [[|l|o n]|] eqn:Ht; [| |left; reflexivity ..].
  - right. unfold record_loop_enter.
    destruct (fps (self s) =? 0).
    + exists Entering, (Finished (Crashed ZeroDivisionError) 0), [].
      cbn [with_threads threads captures writers write_target capturing length].
      rewrite app_nil_r. repeat split; solve [discriminate | auto].
    + cbn [perf_counter].
      eexists Entering, _, [].
      cbn [with_threads with_clock threads captures writers write_target capturing
           length phase].
      rewrite app_nil_r. repeat split; solve [discriminate | auto].
  - right. unfold record_loop_step.
    destruct (phase l) as [| |f|f wid] eqn:Hp.
    + destruct (stop_event (self s)) eqn:Hstop.
      * exists (Running l), (Finished StoppedCleanly (frame_count l)), [].
        cbn [with_threads threads captures writers write_target capturing length].
        rewrite Hp, app_nil_r. repeat split; solve [discriminate | auto].
      * exists (Running l),
          (Running (mkLoop (frame_interval l) (next_frame_time l) (frame_count l)
                      AtCapture)), [].
        cbn [with_threads with_clock threads captures writers write_target capturing
             length phase].
        rewrite app_nil_r. repeat split; solve [discriminate | auto].
    + destruct (screenshot env _ _) as [shape|e].
      * eexists (Running l), _, [Region.as_tuple (region (self s))].
        cbn [with_threads with_clock with_captures threads captures writers
             write_target capturing length phase].
        rewrite Hp. repeat split; solve [discriminate | auto].
      * eexists (Running l), _, [Region.as_tuple (region (self s))].
        cbn [with_threads with_clock with_captures threads captures writers
             write_target capturing length phase].
        rewrite Hp. repeat split; solve [discriminate | auto].
    + destruct (writer (self s)) as [wid|] eqn:Hw.
      * eexists (Running l), _, [].
        cbn [with_threads threads captures writers write_target capturing length phase].
        rewrite Hp, app_nil_r. repeat split; solve [discriminate | auto | congruence].
      * eexists (Running l), _, [].
        cbn [with_threads threads captures writers write_target capturing length].
        rewrite Hp, app_nil_r. repeat split; solve [discriminate | auto].
    + destruct (write_error env _) as [e|].
      * eexists (Running l), _, [].
        cbn [with_threads with_clock with_writers threads captures writers
             write_target capturing length].
        rewrite Hp, app_nil_r. repeat split; first [discriminate | solve [auto] | right; exists f, wid; auto].
      * destruct (pace env _ _ _) as [nft c].
        eexists (Running l), _, [].
        cbn [with_threads with_clock with_writers threads captures writers
             write_target capturing length phase].
        rewrite Hp, app_nil_r. repeat split; first [discriminate | solve [auto] | right; exists f, wid; auto].
Qed.

(** A thread calls [write] on the writer it has read from [self.writer]:
    the one the recorder held then. *)
Lemma targets_held_thread_step (env : Env) (tid : nat) (s : State) :
  targets_held s -> targets_held (thread_step env tid s).
Proof.
  intros Hall.
  destruct (thread_step_effect env tid s)
    as [->|(th & th' & extra & Ht & Hth & Htgt & _ & _ & Hws)]; [exact Hall|].
  assert (Hkeep : forall t, target_ok s t -> target_ok (thread_step env tid s) t).
  { intros t. unfold target_ok. destruct (write_target t) as [wid|]; [|auto].
    rewrite thread_step_self. intros [Hh|Hc]; [left; exact Hh|]. right.
    destruct Hws as [Hsame|(f & i & _ & Halt)].
    - unfold closed_at in *. rewrite Hsame. exact Hc.
    - eapply closed_at_alter_write; eassumption. }
  unfold targets_held. rewrite Hth. apply Forall_insert.
  - eapply Forall_impl; [exact Hkeep | exact Hall].
  - unfold target_ok. destruct (write_target th') as [wid|] eqn:E; [|exact I].
    left. rewrite thread_step_self. apply Htgt. reflexivity.
Qed.

Lemma targets_held_iter_step (env : Env) (tid n : nat) (s : State) :
  targets_held s -> targets_held (Nat.iter n (thread_step env tid) s).
Proof.
  intros H. induction n as [|n IH]; simpl; [exact H|].
  apply targets_held_thread_step, IH.
Qed.

Lemma targets_held_thread_steps (env : Env) (tids : list nat) (s : State) :
  targets_held s -> targets_held (thread_steps env tids s).
Proof.
  revert s. induction tids as [|t tids IH]; intros s H; [exact H|].
  unfold thread_steps in *. simpl. apply IH, targets_held_thread_step, H.
Qed.

(** A recorder started once: its thread has not read [self.writer] yet. *)
Lemma targets_held_start (env : Env) (rec : VideoRecorder) :
  targets_held (snd (start_recording env (boot rec))).
Proof.
  unfold start_recording, start_recording_try.
  destruct (negb (w_isOpened _)); cbn [snd].
  - unfold cleanup. cbn. constructor.
  - unfold targets_held. cbn. repeat constructor.
Qed.

(** After [_cleanup] the writer that was held is closed. *)
Lemma stopped_cleanup (s : State) :
  stop_event (self s) = true -> targets_held s -> stopped (cleanup s).
Proof.
  intros Hf Hall. destruct (cleanup_self s) as [Hw Hf'].
  split; [rewrite Hf'; exact Hf|]. split; [exact Hw|].
  rewrite cleanup_threads. eapply Forall_impl; [|exact Hall].
  intros t. unfold target_ok, target_closed.
  destruct (write_target t) as [wid|]; [|auto].
  unfold cleanup, closed_at. destruct (writer (self s)) as [h|] eqn:E.
  - cbn [with_self with_writers writers]. rewrite list_lookup_alter.
    intros [[= ->]|Hc].
    + rewrite decide_True by reflexivity.
      destruct (writers s !! wid); [reflexivity | exact I].
    + destruct (decide (h = wid)) as [->|_]; [|exact Hc].
      destruct (writers s !! wid); [reflexivity | exact I].
  - intros [Hh|Hc]; [discriminate | exact Hc].
Qed.

(** A stopped recorder stays stopped, writes nothing, and takes the
    screenshot of a thread that had passed the test of the flag. *)
Lemma stopped_thread_step (env : Env) (tid : nat) (s : State) :
  stopped s ->
  stopped (thread_step env tid s) /\
  writers (thread_step env tid s) = writers s /\
  exists extra,
    captures (thread_step env tid s) = captures s ++ extra /\
    (length extra + count_capturing (threads (thread_step env tid s)) =
     count_capturing (threads s))%nat.
Proof.
  intros (Hf & Hw & Hall).
  destruct (thread_step_effect env tid s)
    as [->|(th & th' & extra & Ht & Hth & Htgt & Hcap & Hcount & Hws)].
  { split; [repeat split; assumption|]. split; [reflexivity|].
    exists []. rewrite app_nil_r. auto. }
  assert (Hsame : writers (thread_step env tid s) = writers s).
  { destruct Hws as [Hsame|(f & wid & Hwt & Halt)]; [exact Hsame|].
    rewrite Halt. apply alter_write_closed.
    pose proof (Forall_lookup_1 _ _ _ _ Hall Ht) as Hc.
    unfold target_closed in Hc. rewrite Hwt in Hc. exact Hc. }
  split; [|split; [exact Hsame|]].
  - split; [rewrite thread_step_self; exact Hf|].
    split; [rewrite thread_step_self; exact Hw|].
    rewrite Hth. apply Forall_insert.
    + eapply Forall_impl; [|exact Hall]. intros t. unfold target_closed, closed_at.
      rewrite Hsame. auto.
    + unfold target_closed. destruct (write_target th') as [wid|] eqn:E; [|exact I].
      specialize (Htgt wid eq_refl). congruence.
  - exists extra. split; [exact Hcap|]. rewrite Hth.
    pose proof (count_capturing_insert (threads s) tid th th' Ht).
    specialize (Hcount Hf). lia.
Qed.

Lemma stopped_thread_steps (env : Env) (tids : list nat) (s : State) :
  stopped s ->
  stopped (thread_steps env tids s) /\
  writers (thread_steps env tids s) = writers s /\
  exists extra,
    captures (thread_steps env tids s) = captures s ++ extra /\
    (length extra + count_capturing (threads (thread_steps env tids s)) =
     count_capturing (threads s))%nat.
Proof.
  revert s. induction tids as [|t tids IH]; intros s Hs.
  - split; [exact Hs|]. split; [reflexivity|]. exists []. rewrite app_nil_r. auto.
  - destruct (stopped_thread_step env t s Hs) as (Hs1 & Hw1 & e1 & Hc1 & Hn1).
    destruct (IH _ Hs1) as (Hs2 & Hw2 & e2 & Hc2 & Hn2).
    unfold thread_steps in *. simpl.
    split; [exact Hs2|]. split; [rewrite Hw2; exact Hw1|].
    exists (e1 ++ e2). rewrite Hc2, Hc1, <- app_assoc, length_app.
    split; [reflexivity | lia].
Qed.

(** [stop_recording] on a recorder whose thread is alive leaves it
    stopped. *)
Lemma stop_recording_stopped (env : Env) (timeout : Q) (tid : nat) (s : State) :
  recording_thread (self s) = Some tid ->
  thread_alive s tid = true ->
  targets_held s ->
  stopped (snd (stop_recording env timeout s)).
Proof.
  intros Htid Halive Hall. unfold stop_recording. rewrite Htid, Halive.
  cbn [negb snd]. apply stopped_cleanup.
  - unfold join. rewrite iter_step_self. reflexivity.
  - unfold join. apply targets_held_iter_step. exact Hall.
Qed.

(** X1. Whatever the caller and the threads do, [release] is called at
    most once on each writer, and the writer the recorder holds in
    [self.writer] exists and has not been released. *)
Theorem X1_release_at_most_once (env : Env) (r0 : VideoRecorder) (s : State) :
  writer r0 = None ->
  reachable env r0 s ->
  Forall (fun w => (w_releases w <= 1)%nat) (writers s) /\
  forall wid, writer (self s) = Some wid ->
    exists w, writers s !! wid = Some w /\ w_releases w = 0%nat.
Proof. intros Hw Hs. exact (reachable_release_ok env r0 s Hw Hs). Qed.

Lemma X1_release_at_most_once_witness :
  Forall (fun w => (w_releases w <= 1)%nat)
    (writers (snd (stop_recording fast_env 5 (one_cycle fast_env)))).
Proof.
  refine (proj1 (X1_release_at_most_once fast_env sample_recorder
                   (snd (stop_recording fast_env 5 (one_cycle fast_env))) eq_refl _)).
  unfold one_cycle, captured, started.
  apply reach_stop, reach_step, reach_step, reach_step, reach_step, reach_step,
    reach_start, reach_boot.
Defined.

(** X3. [stop_recording] on a recorder whose thread is alive.  It returns
    whether the thread has finished when [join] comes back; either way the
    flag is left set, [self.writer] is [None], and the writer that was held
    has been released exactly once and is closed.  If [join] lets the
    thread take four steps or more (the three that end the cycle it is in,
    and the test of the flag), the thread has finished and the result is
    [True]. *)
Theorem X3_stop_running_recorder (env : Env) (r0 : VideoRecorder) (timeout : Q)
  (tid : nat) (s : State) :
  writer r0 = None ->
  reachable env r0 s ->
  recording_thread (self s) = Some tid ->
  thread_alive s tid = true ->
  let s' := snd (stop_recording env timeout s) in
  fst (stop_recording env timeout s) = negb (thread_alive s' tid) /\
  stop_event (self s') = true /\
  writer (self s') = None /\
  (forall wid, writer (self s) = Some wid ->
     exists w, writers s' !! wid = Some w /\
               w_releases w = 1%nat /\ w_isOpened w = false) /\
  ((4 <= join_steps env timeout)%nat ->
     fst (stop_recording env timeout s) = true).
Proof.
  intros Hr0 Hs Htid Halive s'.
  assert (Hthread : exists th, threads s !! tid = Some th).
  { unfold thread_alive in Halive. destruct (threads s !! tid); [eauto | discriminate]. }
  destruct Hthread as [th Hth].
  subst s'. unfold stop_recording. rewrite Htid, Halive. cbn [negb fst snd].
  set (s1 := with_self (set_stop_event true) s).
  set (s2 := join env tid timeout s1).
  assert (Hself2 : self s2 = self s1) by apply iter_step_self.
  assert (Hrel2 : release_ok s2).
  { unfold s2, join. pose proof (reachable_release_ok env r0 s Hr0 Hs) as [Ha Hh].
    assert (Hrel1 : release_ok s1) by (split; assumption).
    induction (join_steps env timeout) as [|n IH]; simpl;
      [exact Hrel1 | apply release_ok_thread_step, IH]. }
  destruct (cleanup_self s2) as [Hw Hflag].
  split; [unfold thread_alive; rewrite cleanup_threads; reflexivity|].
  split; [rewrite Hflag, Hself2; reflexivity|].
  split; [exact Hw|].
  split.
  - intros wid Hheld.
    assert (Hheld2 : writer (self s2) = Some wid) by (rewrite Hself2; exact Hheld).
    destruct (proj2 Hrel2 wid Hheld2) as (w & Hlk & H0).
    exists (Writer_release w). unfold cleanup. rewrite Hheld2. simpl.
    rewrite list_lookup_alter_eq, Hlk. simpl. rewrite H0. auto.
  - intros Hn. unfold s2, join.
    rewrite (iter_step_finished env tid th _ s1); [reflexivity | reflexivity | exact Hth | exact Hn].
Qed.

Lemma X3_stop_running_recorder_witness :
  fst (stop_recording patient_env 5 (captured patient_env)) = true.
Proof.
  refine (proj2 (proj2 (proj2 (proj2
    (X3_stop_running_recorder patient_env sample_recorder 5 0 (captured patient_env)
       eq_refl _ eq_refl eq_refl)))) _).
  - unfold captured, started.
    apply reach_step, reach_step, reach_step, reach_start, reach_boot.
  - simpl. lia.
Defined.

(** X4. Once [stop_recording] has gone past its first test, also when it
    reports a timeout, no thread of the recorder writes a frame any more,
    and the only screenshots still taken are those of threads that had
    tested the flag before it was set and had not called
    [pyautogui.screenshot] yet: one each.  The flag is set, [self.writer]
    is [None] and the writer is closed, so a thread stops at its next test
    of the flag, fails at its next read of [self.writer], or calls [write]
    on a closed writer, which ignores the frame.  This is for a recorder
    whose threads call [write] on the writer it holds; after a second
    [start_recording] a thread may still hold the writer of the first. *)
Theorem X4_nothing_written_after_stop (env : Env) (timeout : Q) (tid : nat)
  (tids : list nat) (s : State) :
  recording_thread (self s) = Some tid ->
  thread_alive s tid = true ->
  targets_held s ->
  let s' := snd (stop_recording env timeout s) in
  writers (thread_steps env tids s') = writers s' /\
  exists extra,
    captures (thread_steps env tids s') = captures s' ++ extra /\
    (length extra + count_capturing (threads (thread_steps env tids s')) =
     count_capturing (threads s'))%nat.
Proof.
  intros Htid Halive Hall s'.
  pose proof (stop_recording_stopped env timeout tid s Htid Halive Hall) as Hs.
  destruct (stopped_thread_steps env tids _ Hs) as (_ & Hw & Hc).
  split; [exact Hw | exact Hc].
Qed.

Lemma X4_nothing_written_after_stop_witness :
  fst (stop_recording no_join_env 0
         (thread_steps no_join_env [0; 0]%nat (started no_join_env))) = false /\
  count_capturing
    (threads (snd (stop_recording no_join_env 0
                     (thread_steps no_join_env [0; 0]%nat (started no_join_env))))) = 1%nat /\
  captures
    (thread_steps no_join_env [0; 0; 0]%nat
       (snd (stop_recording no_join_env 0
               (thread_steps no_join_env [0; 0]%nat (started no_join_env))))) =
    [(10, 10, 100, 50)] /\
  map w_written
    (writers (thread_steps no_join_env [0; 0; 0]%nat
                (snd (stop_recording no_join_env 0
                        (thread_steps no_join_env [0; 0]%nat (started no_join_env)))))) =
    [[]].
Proof.
  split; [reflexivity|]. split; [reflexivity|]. split; [reflexivity|].
  rewrite (proj1 (X4_nothing_written_after_stop no_join_env 0 0 [0; 0; 0]%nat
                    (thread_steps no_join_env [0; 0]%nat (started no_join_env))
                    eq_refl eq_refl
                    (targets_held_thread_steps no_join_env [0; 0]%nat _
                       (targets_held_start no_join_env sample_recorder)))).
  reflexivity.
Defined.

(** The writer at [wid] is out of the recorder's reach: what the recorder
    holds, if anything, was built later. *)
Lemma unreachable_writer_kept (env : Env) (wid : nat) (k : nat) (o : Op) (s : State) :
  (exists w, writers s !! wid = Some w /\ w_releases w = k) ->
  (forall h, writer (self s) = Some h -> (wid < h)%nat) ->
  (exists w, writers (apply_op env s o) !! wid = Some w /\ w_releases w = k) /\
  (forall h, writer (self (apply_op env s o)) = Some h -> (wid < h)%nat).
Proof.
  assert (Hstep : forall tid s0,
    (exists w, writers s0 !! wid = Some w /\ w_releases w = k) ->
    (forall h, writer (self s0) = Some h -> (wid < h)%nat) ->
    (exists w, writers (thread_step env tid s0) !! wid = Some w /\ w_releases w = k) /\
    (forall h, writer (self (thread_step env tid s0)) = Some h -> (wid < h)%nat)).
  { intros tid s0 (w & Hw & Hk) Hh. rewrite thread_step_self. split; [|exact Hh].
    destruct (thread_step_writers env tid s0) as [->|(f & i & ->)]; [eauto|].
    rewrite list_lookup_alter. destruct (decide (i = wid)) as [->|_]; [|eauto].
    rewrite Hw. eexists; split; [reflexivity|].
    rewrite Writer_write_releases. exact Hk. }
  assert (Hclean : forall s0,
    (exists w, writers s0 !! wid = Some w /\ w_releases w = k) ->
    (forall h, writer (self s0) = Some h -> (wid < h)%nat) ->
    (exists w, writers (cleanup s0) !! wid = Some w /\ w_releases w = k) /\
    (forall h, writer (self (cleanup s0)) = Some h -> (wid < h)%nat)).
  { intros s0 (w & Hw & Hk) Hh. unfold cleanup.
    destruct (writer (self s0)) as [h|] eqn:E;
      [|split; [eauto | intros h; rewrite E; discriminate]].
    simpl. split; [|discriminate].
    specialize (Hh h eq_refl).
    rewrite list_lookup_alter_ne by lia. eauto. }
  intros (w & Hw & Hk) Hh.
  pose proof (lookup_lt_Some _ _ _ Hw) as Hlen.
  destruct o as [|timeout|tid]; simpl.
  - unfold start_recording, start_recording_try.
    set (w1 := VideoWriter _ _ _ _).
    assert (Hs1 :
      (exists w, (writers s ++ [w1]) !! wid = Some w /\ w_releases w = k)).
    { exists w. split; [|exact Hk]. apply lookup_app_l_Some. exact Hw. }
    destruct (negb (w_isOpened w1)); cbn [snd].
    + apply Hclean; simpl; [exact Hs1|]. intros h [= <-]. exact Hlen.
    + simpl. split; [exact Hs1|]. intros h [= <-]. exact Hlen.
  - unfold stop_recording.
    destruct (recording_thread (self s)) as [tid|]; [|split; eauto].
    destruct (negb (thread_alive s tid)); [split; eauto|]. cbn [snd].
    unfold join.
    assert (Hit : forall n,
      (exists w, writers (Nat.iter n (thread_step env tid)
                            (with_self (set_stop_event true) s)) !! wid = Some w /\
                 w_releases w = k) /\
      (forall h, writer (self (Nat.iter n (thread_step env tid)
                                 (with_self (set_stop_event true) s))) = Some h ->
                 (wid < h)%nat)).
    { induction n as [|n [IH1 IH2]]; simpl; [split; eauto|]. apply Hstep; assumption. }
    destruct (Hit (join_steps env timeout)) as [H1 H2]. apply Hclean; assumption.
  - apply Hstep; eauto.
Qed.

(** X5. [start_recording] does not look at the writer the recorder
    already holds: it overwrites [self.writer].  A writer held when
    [start_recording] is called again is out of reach from then on:
    nothing that follows ever calls [release] on it. *)
Theorem X5_restart_abandons_writer (env : Env) (wid : nat) (w : Writer)
  (ops : list Op) (s : State) :
  writer (self s) = Some wid ->
  writers s !! wid = Some w ->
  exists w', writers (run env (OpStart :: ops) s) !! wid = Some w' /\
             w_releases w' = w_releases w.
Proof.
  intros Hheld Hw. unfold run. simpl.
  assert (H1 : (exists w', writers (apply_op env s OpStart) !! wid = Some w' /\
                           w_releases w' = w_releases w) /\
               (forall h, writer (self (apply_op env s OpStart)) = Some h ->
                          (wid < h)%nat)).
  { pose proof (lookup_lt_Some _ _ _ Hw) as Hlen.
    simpl. unfold start_recording, start_recording_try.
    set (w1 := VideoWriter _ _ _ _).
    assert (Hs1 : (writers s ++ [w1]) !! wid = Some w)
      by (apply lookup_app_l_Some; exact Hw).
    destruct (negb (w_isOpened w1)); cbn [snd].
    - unfold cleanup. simpl. split; [|discriminate].
      rewrite list_lookup_alter_ne by lia. eauto.
    - simpl. split; [eauto|]. intros h [= <-]. exact Hlen. }
  change (snd (start_recording env s)) with (apply_op env s OpStart).
  generalize dependent (apply_op env s OpStart). clear Hheld.
  induction ops as [|o ops IH]; intros s1 [Hex Hh]; simpl; [exact Hex|].
  apply IH. apply unreachable_writer_kept; assumption.
Qed.

Lemma X5_restart_abandons_writer_witness :
  exists w', writers (run fast_env [OpStart; OpStep 0; OpStep 1; OpStop 5; OpStart; OpStop 5]
                        (one_cycle fast_env)) !! 0%nat = Some w' /\
             w_releases w' = 0%nat.
Proof.
  exact (X5_restart_abandons_writer fast_env 0
           (mkWriter "out.mp4" (inject_Z 30) (100, 50) true [mkFrame 50 100 BGR 0] 0)
           [OpStep 0; OpStep 1; OpStop 5; OpStart; OpStop 5]
           (one_cycle fast_env) eq_refl eq_refl).
Defined.

(** X6. A frame rate of 0 does not make [start_recording] fail: the
    writer opens, the thread is started and [True] is returned.  The
    thread then dies on its first statement, the division [1.0 / self.fps],
    which is outside the [try]: nothing is captured, and [stop_recording]
    afterwards returns [True] without releasing the writer. *)
Theorem X6_zero_frame_rate (env : Env) (timeout : Q) (s : State) :
  fps (self s) = 0 ->
  opens env (filename (self s)) (inject_Z (fps (self s)))
    (Region.width (region (self s)), Region.height (region (self s))) = true ->
  let tid := length (threads s) in
  let s1 := thread_step env tid (snd (start_recording env s)) in
  fst (start_recording env s) = true /\
  threads s1 = threads s ++ [Finished (Crashed ZeroDivisionError) 0] /\
  captures s1 = captures s /\
  clock s1 = clock s /\
  writers s1 = writers (snd (start_recording env s)) /\
  stop_recording env timeout s1 = (true, s1) /\
  writer (self s1) = Some (length (writers s)).
Proof.
  intros Hfps Hopen tid s1.
  assert (Hstart : start_recording env s =
    (true,
     with_self (set_recording_thread (Some tid))
       (with_threads (fun ts => ts ++ [Entering])
          (with_self (set_stop_event false)
             (with_self (set_writer (Some (length (writers s))))
                (with_writers (fun ws => ws ++
                   [VideoWriter env (filename (self s)) (inject_Z (fps (self s)))
                      (Region.width (region (self s)), Region.height (region (self s)))]) s)))))).
  { unfold start_recording, start_recording_try. cbn [VideoWriter w_isOpened].
    rewrite Hopen. reflexivity. }
  assert (Hlk : forall (ts : list Thread) (th : Thread), (ts ++ [th]) !! length ts = Some th).
  { intros ts th. rewrite lookup_app_r by lia. rewrite Nat.sub_diag. reflexivity. }
  assert (Hins : forall (ts : list Thread) (a b : Thread),
            <[length ts := b]> (ts ++ [a]) = ts ++ [b]).
  { intros ts a b. pose proof (insert_app_r ts [a] 0 b) as H.
    rewrite Nat.add_0_r in H. exact H. }
  assert (Hs1 : s1 =
    mkState
      (mkRecorder (region (self s)) (fps (self s)) (filename (self s))
         (Some (length (writers s))) false (Some tid))
      (clock s)
      (writers s ++
         [VideoWriter env (filename (self s)) (inject_Z (fps (self s)))
            (Region.width (region (self s)), Region.height (region (self s)))])
      (threads s ++ [Finished (Crashed ZeroDivisionError) 0])
      (captures s)).
  { subst s1 tid. rewrite Hstart. cbn [snd]. unfold thread_step.
    cbn [threads with_self with_threads with_writers]. rewrite Hlk.
    unfold record_loop_enter.
    cbn [self with_self with_threads with_writers fps set_recording_thread
         set_stop_event set_writer].
    rewrite Hfps at 1. cbn [Z.eqb]. unfold with_threads at 1.
    cbn [with_self with_threads with_writers threads captures clock writers self
         region fps filename writer stop_event recording_thread
         set_recording_thread set_stop_event set_writer].
    rewrite Hins. reflexivity. }
  clearbody s1. subst s1. rewrite Hstart. cbn [fst snd writers with_self with_threads with_writers].
  repeat split.
  unfold stop_recording. cbn [self recording_thread]. unfold thread_alive.
  cbn [threads]. subst tid. rewrite Hlk. reflexivity.
Qed.

Lemma X6_zero_frame_rate_witness :
  threads (thread_step fast_env 0 (snd (start_recording fast_env (boot zero_fps_recorder))))
    = [Finished (Crashed ZeroDivisionError) 0] /\
  stop_recording fast_env 5
    (thread_step fast_env 0 (snd (start_recording fast_env (boot zero_fps_recorder)))) =
  (true, thread_step fast_env 0 (snd (start_recording fast_env (boot zero_fps_recorder)))).
Proof.
  destruct (X6_zero_frame_rate fast_env 5 (boot zero_fps_recorder) eq_refl eq_refl)
    as (_ & H2 & _ & _ & _ & H6 & _).
  split; [exact H2 | exact H6].
Defined.

(** * The region selector *)

Lemma py_int_comp (a b : Q) : (a == b)%Q -> py_int a = py_int b.
Proof.
  intros H. unfold py_int.
  assert (Hb : Qle_bool 0 a = Qle_bool 0 b).
  { destruct (Qle_bool 0 a) eqn:Ea, (Qle_bool 0 b) eqn:Eb; try reflexivity.
    - apply Qle_bool_iff in Ea. rewrite H in Ea. apply Qle_bool_iff in Ea. congruence.
    - apply Qle_bool_iff in Eb. rewrite <- H in Eb. apply Qle_bool_iff in Eb. congruence. }
  rewrite Hb. destruct (Qle_bool 0 b); [apply Qfloor_comp | apply Qceiling_comp]; exact H.
Qed.

Lemma py_min_sym (a b : Q) : (py_min a b == py_min b a)%Q.
Proof.
  unfold py_min. destruct (Qltb b a) eqn:E1, (Qltb a b) eqn:E2;
    rewrite ?Qltb_lt, ?Qltb_ge in *; try reflexivity; lra.
Qed.

Lemma on_release_valid (start_pos : option (Q * Q)) (end_pos : Q * Q) (r : Region.t) :
  on_release start_pos end_pos = Some r ->
  0 <= Region.x r /\ 0 <= Region.y r /\
  10 <= Region.width r /\ 10 <= Region.height r.
Proof.
  unfold on_release, selected_region.
  destruct start_pos as [[x1 y1]|]; [|discriminate]. destruct end_pos as [x2 y2].
  destruct (Region.new _ _ _ _) as [region|e] eqn:E; [|discriminate].
  apply new_ok_iff in E as (Hw0 & Hh0 & Hx0 & Hy0 & ->).
  cbn [Region.width Region.height].
  destruct (Z.ltb_spec (py_int (Qabs (x2 - x1))) 10); cbn [orb]; [discriminate|].
  destruct (Z.ltb_spec (py_int (Qabs (y2 - y1))) 10); [discriminate|].
  intros [= <-]. cbn [Region.x Region.y Region.width Region.height]. auto.
Qed.

Lemma py_int_Z (a : Z) : py_int (inject_Z a) = a.
Proof.
  unfold py_int. destruct (Qle_bool 0 (inject_Z a)); [apply Qfloor_Z | apply Qceiling_Z].
Qed.

Lemma py_min_Z (a b : Z) : py_min (inject_Z a) (inject_Z b) = inject_Z (Z.min a b).
Proof.
  unfold py_min. destruct (Qltb (inject_Z b) (inject_Z a)) eqn:E.
  - apply Qltb_lt in E. rewrite <- Zlt_Qlt in E. rewrite Z.min_r by lia. reflexivity.
  - apply Qltb_ge in E. rewrite <- Zle_Qle in E. rewrite Z.min_l by lia. reflexivity.
Qed.

Lemma Qabs_minus_Z (a b : Z) :
  (Qabs (inject_Z b - inject_Z a) == inject_Z (Z.abs (b - a)))%Q.
Proof. unfold Qeq. simpl. lia. Qed.

(** X7. On whole pixels, a drag from [(a1, b1)] to [(a2, b2)] hands a
    region to the callback exactly when it spans at least 10 pixels both
    ways and its upper left corner has no negative coordinate; every other
    drag, and a release without a press, hands over [None].  The region
    is the upper left corner and the two spans. *)
Theorem X7_selection_accepted (a1 b1 a2 b2 : Z) (r : Region.t) :
  pixel a1 -> pixel b1 -> pixel a2 -> pixel b2 ->
  on_release None (inject_Z a2, inject_Z b2) = None /\
  (on_release (Some (inject_Z a1, inject_Z b1)) (inject_Z a2, inject_Z b2) = Some r <->
   0 <= Z.min a1 a2 /\ 0 <= Z.min b1 b2 /\
   10 <= Z.abs (a2 - a1) /\ 10 <= Z.abs (b2 - b1) /\
   r = Region.mk (Z.min a1 a2) (Z.min b1 b2) (Z.abs (a2 - a1)) (Z.abs (b2 - b1))).
Proof.
  intros _ _ _ _. split; [reflexivity|].
  unfold on_release, selected_region.
  rewrite !py_min_Z.
  rewrite (py_int_comp _ _ (Qabs_minus_Z a1 a2)), (py_int_comp _ _ (Qabs_minus_Z b1 b2)).
  rewrite !py_int_Z.
  destruct (Region.new _ _ _ _) as [region|e] eqn:E.
  - apply new_ok_iff in E as (Hw0 & Hh0 & Hx0 & Hy0 & ->).
    cbn [Region.width Region.height].
    destruct (Z.ltb_spec (Z.abs (a2 - a1)) 10) as [Hlt|Hge]; cbn [orb].
    + split; [discriminate | lia].
    + destruct (Z.ltb_spec (Z.abs (b2 - b1)) 10) as [Hlt2|Hge2].
      * split; [discriminate | lia].
      * split.
        -- intros [= <-]. repeat split; assumption.
        -- intros (_ & _ & _ & _ & ->). reflexivity.
  - split; [discriminate|]. intros (H1 & H2 & H3 & H4 & _).
    assert (Hex : exists e0, Region.new (Z.min a1 a2) (Z.min b1 b2)
                    (Z.abs (a2 - a1)) (Z.abs (b2 - b1)) = Raise e0)
      by eauto.
    apply new_raise_iff in Hex. lia.
Qed.

Lemma X7_selection_accepted_witness :
  on_release (Some (inject_Z 120, inject_Z 80)) (inject_Z 19, inject_Z 12) =
    Some (Region.mk 19 12 101 68).
Proof.
  apply (proj2 (X7_selection_accepted 120 80 19 12 (Region.mk 19 12 101 68)
                  ltac:(unfold pixel; simpl; lia) ltac:(unfold pixel; simpl; lia)
                  ltac:(unfold pixel; simpl; lia) ltac:(unfold pixel; simpl; lia))).
  repeat split; simpl; lia.
Defined.

(** X8. The region does not depend on the direction of the drag: pressing
    at one corner and releasing at the opposite one gives the same result
    as the other way round. *)
Theorem X8_selection_symmetric (p q : Q * Q) :
  on_release (Some p) q = on_release (Some q) p.
Proof.
  destruct p as [x1 y1], q as [x2 y2]. unfold on_release, selected_region.
  rewrite (py_int_comp _ _ (py_min_sym x1 x2)).
  rewrite (py_int_comp _ _ (py_min_sym y1 y2)).
  rewrite (Qabs_Qminus x2 x1), (Qabs_Qminus y2 y1).
  reflexivity.
Qed.

(** X9. A region handed over by the selector is one the recorder accepts:
    [VideoRecorder(region, fps, filename)] does not raise, and the region it
    keeps has the same corner and an even width and height that are at
    least 10 and at most one less than those selected. *)
Theorem X9_selected_region_accepted (start_pos : option (Q * Q)) (end_pos : Q * Q)
  (r : Region.t) (f : Z) (name : string) :
  on_release start_pos end_pos = Some r ->
  exists rec,
    VideoRecorder_init r f name = Ok rec /\
    Region.x (region rec) = Region.x r /\ Region.y (region rec) = Region.y r /\
    Z.even (Region.width (region rec)) = true /\
    Z.even (Region.height (region rec)) = true /\
    10 <= Region.width (region rec) <= Region.width r /\
    Region.width r - 1 <= Region.width (region rec) /\
    10 <= Region.height (region rec) <= Region.height r /\
    Region.height r - 1 <= Region.height (region rec).
Proof.
  intros Hsel. apply on_release_valid in Hsel as (Hx & Hy & Hw & Hh).
  unfold VideoRecorder_init.
  assert (Hok : Region.make_even_dimensions r =
                Ok (Region.mk (Region.x r) (Region.y r)
                      (Region.width r - Region.width r mod 2)
                      (Region.height r - Region.height r mod 2))).
  { apply make_even_ok_iff. repeat split; lia. }
  rewrite Hok. eexists; split; [reflexivity|]. simpl.
  destruct (even_part (Region.width r)) as [Hw1 Hw2].
  destruct (even_part (Region.height r)) as [Hh1 Hh2].
  pose proof (Z.mod_pos_bound (Region.width r) 2 ltac:(lia)).
  pose proof (Z.mod_pos_bound (Region.height r) 2 ltac:(lia)).
  assert (Hw10 : Region.width r = 10 -> Region.width r mod 2 = 0) by (intros ->; reflexivity).
  assert (Hh10 : Region.height r = 10 -> Region.height r mod 2 = 0) by (intros ->; reflexivity).
  repeat split; try assumption; lia.
Qed.

Lemma X9_selected_region_accepted_witness :
  exists rec,
    VideoRecorder_init (Region.mk 19 12 101 67) 30 "out.mp4" = Ok rec /\
    Region.x (region rec) = 19 /\ Region.y (region rec) = 12 /\
    Z.even (Region.width (region rec)) = true /\
    Z.even (Region.height (region rec)) = true /\
    10 <= Region.width (region rec) <= 101 /\
    101 - 1 <= Region.width (region rec) /\
    10 <= Region.height (region rec) <= 67 /\
    67 - 1 <= Region.height (region rec).
Proof.
  exact (X9_selected_region_accepted (Some (120 # 1, 80 # 1)) (19 # 1, 25 # 2)
           (Region.mk 19 12 101 67) 30 "out.mp4" eq_refl).
Defined.

(** * The timer *)

Lemma format_02d_two_digits (n : Z) :
  0 <= n < 100 -> format_02d n = two_digits n.
Proof.
  intros Hn.
  assert (Hall : forallb (fun k => String.eqb (format_02d (Z.of_nat k))
                                     (two_digits (Z.of_nat k)))
                   (seq 0 100) = true) by (vm_compute; reflexivity).
  rewrite forallb_forall in Hall.
  specialize (Hall (Z.to_nat n)).
  rewrite Z2Nat.id in Hall by lia.
  apply String.eqb_eq, Hall, in_seq. lia.
Qed.

Lemma digit_inj (a b : Z) : 0 <= a < 10 -> 0 <= b < 10 -> digit a = digit b -> a = b.
Proof.
  intros Ha Hb H. unfold digit in H.
  apply (f_equal nat_of_ascii) in H.
  rewrite !nat_ascii_embedding in H by lia. lia.
Qed.

Lemma two_digits_inj (a b : Z) :
  0 <= a < 100 -> 0 <= b < 100 -> two_digits a = two_digits b -> a = b.
Proof.
  intros Ha Hb H. unfold two_digits in H. injection H as H1 H2.
  apply digit_inj in H1; [|split; [apply Z.div_pos; lia | apply Z.div_lt_upper_bound; lia] ..].
  apply digit_inj in H2; [|apply Z.mod_pos_bound; lia ..].
  rewrite (Z.div_mod a 10), (Z.div_mod b 10) by lia. congruence.
Qed.

Lemma elapsed_parts (e : Z) :
  0 <= e < 360000 ->
  0 <= e / 3600 < 100 /\ 0 <= e mod 3600 / 60 < 60 /\ 0 <= e mod 3600 mod 60 < 60 /\
  e = 3600 * (e / 3600) + 60 * (e mod 3600 / 60) + e mod 3600 mod 60.
Proof.
  intros He.
  pose proof (Z.div_mod e 3600 ltac:(lia)).
  pose proof (Z.mod_pos_bound e 3600 ltac:(lia)).
  pose proof (Z.div_mod (e mod 3600) 60 ltac:(lia)).
  pose proof (Z.mod_pos_bound (e mod 3600) 60 ltac:(lia)).
  assert (0 <= e mod 3600 / 60 < 60)
    by (split; [apply Z.div_pos; lia | apply Z.div_lt_upper_bound; lia]).
  assert (0 <= e / 3600 < 100)
    by (split; [apply Z.div_pos; lia | apply Z.div_lt_upper_bound; lia]).
  lia.
Qed.

(** X10. For an elapsed time from 0 to under 100 hours, the display is
    eight characters: the two digits of the hours, of the minutes (under
    60) and of the seconds (under 60), with colons between; the three
    numbers add up to the elapsed time. *)
Theorem X10_display_format (e : Z) :
  0 <= e < 360000 ->
  let h := e / 3600 in
  let m := e mod 3600 / 60 in
  let s := e mod 3600 mod 60 in
  format_elapsed e =
    String (digit (h / 10)) (String (digit (h mod 10)) (String ":"
      (String (digit (m / 10)) (String (digit (m mod 10)) (String ":"
        (String (digit (s / 10)) (String (digit (s mod 10)) ""))))))) /\
  String.length (format_elapsed e) = 8%nat /\
  0 <= h < 100 /\ 0 <= m < 60 /\ 0 <= s < 60 /\
  e = 3600 * h + 60 * m + s.
Proof.
  intros He h m s. destruct (elapsed_parts e He) as (Hh & Hm & Hs & Hsum).
  assert (Hf : format_elapsed e =
    String (digit (h / 10)) (String (digit (h mod 10)) (String ":"
      (String (digit (m / 10)) (String (digit (m mod 10)) (String ":"
        (String (digit (s / 10)) (String (digit (s mod 10)) "")))))))).
  { unfold format_elapsed. fold h m s.
    rewrite !format_02d_two_digits by lia. reflexivity. }
  split; [exact Hf|]. split; [rewrite Hf; reflexivity|]. auto.
Qed.

Lemma X10_display_format_witness : format_elapsed 3725 = "01:02:05"%string.
Proof.
  exact (proj1 (X10_display_format 3725 ltac:(lia))).
Defined.

(** X11. Under 100 hours the display tells the elapsed seconds: two
    elapsed times show the same text only when they are equal. *)
Theorem X11_display_injective (e1 e2 : Z) :
  0 <= e1 < 360000 -> 0 <= e2 < 360000 ->
  (format_elapsed e1 = format_elapsed e2 <-> e1 = e2).
Proof.
  intros H1 H2. split; [|intros ->; reflexivity]. intros Heq.
  destruct (elapsed_parts e1 H1) as (Hh1 & Hm1 & Hs1 & Hsum1).
  destruct (elapsed_parts e2 H2) as (Hh2 & Hm2 & Hs2 & Hsum2).
  unfold format_elapsed in Heq.
  rewrite !format_02d_two_digits in Heq by lia.
  unfold two_digits in Heq. simpl in Heq.
  injection Heq as A1 A2 B1 B2 C1 C2.
  assert (Hh : two_digits (e1 / 3600) = two_digits (e2 / 3600))
    by (unfold two_digits; congruence).
  assert (Hm : two_digits (e1 mod 3600 / 60) = two_digits (e2 mod 3600 / 60))
    by (unfold two_digits; congruence).
  assert (Hs : two_digits (e1 mod 3600 mod 60) = two_digits (e2 mod 3600 mod 60))
    by (unfold two_digits; congruence).
  apply two_digits_inj in Hh, Hm, Hs; try lia.
Qed.

Lemma X11_display_injective_witness :
  format_elapsed 3725 = format_elapsed 86399 <-> 3725 = 86399.
Proof.
  apply (X11_display_injective 3725 86399); lia.
Defined.

Lemma py_str_negative (n : Z) :
  n < 0 -> exists c rest, py_str n = String "-" (String c rest).
Proof.
  intros Hn. destruct n as [|p|p]; try lia.
  unfold py_str. simpl.
  unfold NilZero.string_of_uint.
  destruct (Pos.to_uint p) eqn:E; simpl; eauto.
Qed.

(** X12. When the clock has gone back by a second or more since the timer
    was started, the elapsed time is negative and the display begins with
    a minus sign: the hours are negative, the minutes and seconds count
    from 59 down. *)
Theorem X12_display_negative (e : Z) :
  e < 0 ->
  exists rest,
    format_elapsed e =
      String "-" (rest ++ ":" ++ two_digits (e mod 3600 / 60) ++ ":" ++
                  two_digits (e mod 3600 mod 60))%string /\
    rest <> ""%string.
Proof.
  intros He.
  assert (Hh : e / 3600 < 0) by (apply Z.div_lt_upper_bound; lia).
  pose proof (Z.mod_pos_bound e 3600 ltac:(lia)).
  pose proof (Z.mod_pos_bound (e mod 3600) 60 ltac:(lia)).
  assert (0 <= e mod 3600 / 60 < 60)
    by (split; [apply Z.div_pos; lia | apply Z.div_lt_upper_bound; lia]).
  destruct (py_str_negative _ Hh) as (c & rest & Hstr).
  exists (String c rest). split; [|discriminate].
  unfold format_elapsed.
  rewrite (format_02d_two_digits (e mod 3600 / 60)) by lia.
  rewrite (format_02d_two_digits (e mod 3600 mod 60)) by lia.
  unfold format_02d. rewrite Hstr. reflexivity.
Qed.

Lemma X12_display_negative_witness :
  exists rest,
    format_elapsed (-1) =
      String "-" (rest ++ ":" ++ two_digits 59 ++ ":" ++ two_digits 59)%string /\
    rest <> ""%string.
Proof.
  exact (X12_display_negative (-1) ltac:(lia)).
Defined.

Lemma after_cancel_not_in (id : nat) (l : list nat) : id ∉ after_cancel id l.
Proof.
  unfold after_cancel. intros H. apply list_elem_of_filter in H as [H _]. congruence.
Qed.

Lemma after_cancel_subseteq (id : nat) (l : list nat) : after_cancel id l ⊆ l.
Proof.
  unfold after_cancel. intros i H. apply list_elem_of_filter in H as [_ H]. exact H.
Qed.

Lemma after_cancel_singleton (id : nat) : after_cancel id [id] = [].
Proof.
  unfold after_cancel.
  rewrite filter_cons_False by (intros H; apply H; reflexivity).
  reflexivity.
Qed.

Lemma timer_fire_stopped (id : nat) (time : Q) (t : TimerManager) :
  is_running t = false ->
  timer_var (timer_fire id time t) = timer_var t /\
  is_running (timer_fire id time t) = false /\
  scheduled (timer_fire id time t) ⊆ scheduled t.
Proof.
  intros Hr. unfold timer_fire.
  destruct (decide (id ∈ scheduled t)); [|auto].
  unfold update_display. cbn [is_running]. rewrite Hr. cbn [negb orb].
  cbn [timer_var is_running scheduled].
  split; [reflexivity|]. split; [reflexivity | apply after_cancel_subseteq].
Qed.

(** X13. [stop] is final.  It puts zeros in the display, marks the timer
    as not running and cancels the callback [_after_id] names.  Whatever
    callbacks Tk still runs afterwards, the display keeps showing zeros
    and no callback is scheduled again. *)
Theorem X13_timer_stop_is_final (t : TimerManager) (evs : list TimerEvent) :
  forallb is_fire evs = true ->
  let t' := timer_run evs (timer_stop t) in
  timer_var t' = "00:00:00"%string /\
  is_running t' = false /\
  scheduled t' ⊆ scheduled (timer_stop t) /\
  scheduled (timer_stop t) ⊆ scheduled t /\
  (forall id, after_id t = Some id -> id ∉ scheduled (timer_stop t)).
Proof.
  intros Hev t'.
  assert (Hstop : scheduled (timer_stop t) ⊆ scheduled t /\
                  forall id, after_id t = Some id -> id ∉ scheduled (timer_stop t)).
  { unfold timer_stop. cbn [scheduled]. destruct (after_id t) as [i|].
    - split; [apply after_cancel_subseteq|]. intros id [= <-]. apply after_cancel_not_in.
    - split; [reflexivity | discriminate]. }
  assert (Hrun : forall evs t0,
    forallb is_fire evs = true -> is_running t0 = false ->
    timer_var (timer_run evs t0) = timer_var t0 /\
    is_running (timer_run evs t0) = false /\
    scheduled (timer_run evs t0) ⊆ scheduled t0).
  { clear. induction evs as [|ev evs IH]; intros t0 Hev Hr; [simpl; auto|].
    simpl in Hev. apply andb_true_iff in Hev as [Hf Hev].
    destruct ev as [time| |id time]; try discriminate.
    destruct (timer_fire_stopped id time t0 Hr) as (Hv & Hr' & Hs).
    destruct (IH (timer_fire id time t0) Hev Hr') as (Hv2 & Hr2 & Hs2).
    unfold timer_run in *. simpl. rewrite Hv2, Hv.
    repeat split; [exact Hr2|]. etransitivity; eassumption. }
  destruct (Hrun evs (timer_stop t) Hev eq_refl) as (Hv & Hr & Hs).
  destruct Hstop as [Hsub Hnot]. subst t'. rewrite Hv. auto.
Qed.

Lemma X13_timer_stop_is_final_witness :
  timer_var (timer_run [TFire 1 (107 # 1); TFire 0 (108 # 1)]
               (timer_stop (timer_fire 0 (105 # 1) (timer_start (100 # 1) timer_new))))
    = "00:00:00"%string.
Proof.
  exact (proj1 (X13_timer_stop_is_final
                  (timer_fire 0 (105 # 1) (timer_start (100 # 1) timer_new))
                  [TFire 1 (107 # 1); TFire 0 (108 # 1)] eq_refl)).
Defined.

Lemma timer_ok_apply (t : TimerManager) (ev : TimerEvent) :
  timer_ok t ->
  match ev with
  | TStart time => is_running t = false /\ ~ (time == 0)%Q
  | TStop | TFire _ _ => True
  end ->
  timer_ok (timer_apply t ev).
Proof.
  intros [Hrun Hidle] Hev. destruct ev as [time| |id time]; simpl.
  - destruct Hev as [Hr Ht]. destruct (Hidle Hr) as [Hs Hv].
    unfold timer_start, update_display. cbn [is_running negb orb start_time_falsy start_time].
    assert (Hq : Qeq_bool time 0 = false).
    { apply not_true_iff_false. intros H. apply Qeq_bool_iff in H. auto. }
    rewrite Hq. cbn [scheduled next_after]. rewrite Hs.
    split; cbn [is_running after_id scheduled start_time]; [|discriminate].
    intros _. exists (next_after t), time. auto.
  - unfold timer_stop. split; cbn [is_running scheduled timer_var after_id]; [discriminate|].
    intros _. split; [|reflexivity].
    destruct (is_running t) eqn:Hr.
    + destruct (Hrun eq_refl) as (id & t0 & Ha & Hs & _). rewrite Ha, Hs.
      apply after_cancel_singleton.
    + destruct (Hidle eq_refl) as [Hs _]. rewrite Hs.
      destruct (after_id t); reflexivity.
  - unfold timer_fire. destruct (decide (id ∈ scheduled t)) as [Hin|]; [|split; assumption].
    destruct (is_running t) eqn:Hr.
    + destruct (Hrun eq_refl) as (id' & t0 & Ha & Hs & Hst & Ht0).
      rewrite Hs in Hin. apply list_elem_of_singleton in Hin. subst id'.
      unfold update_display, start_time_falsy. cbn [is_running start_time].
      rewrite Hst.
      assert (Hq : Qeq_bool t0 0 = false).
      { apply not_true_iff_false. intros H. apply Qeq_bool_iff in H. auto. }
      rewrite Hq. cbn [negb orb scheduled next_after]. rewrite Hs.
      rewrite after_cancel_singleton.
      split; cbn [is_running after_id scheduled start_time]; [|congruence].
      intros _. exists (next_after t), t0. auto.
    + destruct (Hidle eq_refl) as [Hs _]. rewrite Hs in Hin.
      apply not_elem_of_nil in Hin. contradiction.
Qed.



(** * The application *)

Lemma start_recording_boot (env : Env) (rec : VideoRecorder) :
  region (self (snd (start_recording env (boot rec)))) = region rec /\
  fps (self (snd (start_recording env (boot rec)))) = fps rec /\
  if fst (start_recording env (boot rec))
  then recording_thread (self (snd (start_recording env (boot rec)))) = Some 0%nat /\
       threads (snd (start_recording env (boot rec))) = [Entering]
  else recording_thread (self (snd (start_recording env (boot rec)))) =
         recording_thread rec /\
       threads (snd (start_recording env (boot rec))) = [] /\
       writer (self (snd (start_recording env (boot rec)))) = None.
Proof.
  unfold start_recording, start_recording_try.
  destruct (negb (w_isOpened _)); cbn [fst snd]; repeat split.
Qed.

Lemma init_recorder (r : Region.t) (f : Z) (name : string) (rec : VideoRecorder) :
  VideoRecorder_init r f name = Ok rec ->
  Region.make_even_dimensions r = Ok (region rec) /\ fps rec = f /\
  writer rec = None /\ recording_thread rec = None.
Proof.
  unfold VideoRecorder_init.
  destruct (Region.make_even_dimensions r); [|discriminate].
  intros [= <-]. auto.
Qed.

Lemma thread_step_threads_length (env : Env) (tid : nat) (s : State) :
  length (threads (thread_step env tid s)) = length (threads s).
Proof.
  unfold thread_step.
  destruct (threads s !! tid) as [[|l|o n]|] eqn:E; try reflexivity.
  - assert (Hth : threads (snd (record_loop_enter env s)) = threads s).
    { unfold record_loop_enter. destruct (fps (self s) =? 0); reflexivity. }
    destruct (record_loop_enter env s) as [th s']. simpl in *.
    rewrite length_insert, Hth. reflexivity.
  - pose proof (record_loop_step_threads env l s) as Hth.
    destruct (record_loop_step env l s) as [th s']. simpl in *.
    rewrite length_insert, Hth. reflexivity.
Qed.

Lemma stop_recording_no_thread (env : Env) (timeout : Q) (s : State) :
  recording_thread (self s) = None -> stop_recording env timeout s = (true, s).
Proof. intros H. unfold stop_recording. rewrite H. reflexivity. Qed.

Lemma recorder_ok_state (a a' : App) (rs : State) :
  is_recording a' = is_recording a -> recorder_ok a rs -> recorder_ok a' rs.
Proof. unfold recorder_ok. intros ->. auto. Qed.

Lemma fps_values_nonzero (f : Z) : f ∈ fps_values -> f <> 0.
Proof.
  unfold fps_values. intros H Hf. subst f.
  apply list_elem_of_In in H. simpl in H.
  destruct H as [H|[H|[H|[H|[]]]]]; discriminate.
Qed.

Lemma thread_step_not_crashed (env : Env) (tid : nat) (s : State) :
  fps (self s) <> 0 ->
  Forall not_crashed (threads s) ->
  Forall not_crashed (threads (thread_step env tid s)).
Proof.
  intros Hf Hall. unfold thread_step.
  destruct (threads s !! tid) as [[|l|o n]|] eqn:E; try assumption.
  - unfold record_loop_enter.
    destruct (Z.eqb_spec (fps (self s)) 0) as [H0|_]; [contradiction|].
    cbn [perf_counter with_threads with_clock threads].
    apply Forall_insert; [assumption | exact I].
  - pose proof (record_loop_step_threads env l s) as Hth.
    assert (Hnc : not_crashed (fst (record_loop_step env l s))).
    { unfold record_loop_step. destruct (phase l).
      - destruct (stop_event (self s)); exact I.
      - destruct (screenshot env _ _); exact I.
      - destruct (writer (self s)); exact I.
      - destruct (write_error env _); [exact I|].
        destruct (pace env _ _ _). exact I. }
    destruct (record_loop_step env l s) as [th s']. cbn [fst snd] in *.
    cbn [with_threads threads]. rewrite Hth.
    apply Forall_insert; assumption.
Qed.

Lemma recorder_ok_thread_step (env : Env) (tid : nat) (a : App) (rs : State) :
  recorder_ok a rs -> recorder_ok a (thread_step env tid rs).
Proof.
  unfold recorder_ok. rewrite thread_step_self, thread_step_threads_length.
  intros (H1 & H2 & H3 & H4 & H5 & Hc & Hh & H6). repeat (split; [assumption|]).
  split; [apply thread_step_not_crashed; [apply fps_values_nonzero, H1 | exact Hc]|].
  split; [apply targets_held_thread_step, Hh|].
  destruct (is_recording a); [exact H6|].
  destruct H6 as (Ht & Hth & Hw). repeat split; try assumption.
  unfold thread_step. rewrite Hth, lookup_nil. exact Hth.
Qed.

Lemma app_ok_new : app_ok app_new.
Proof.
  constructor; simpl.
  - split; [discriminate | intros H; contradiction H; reflexivity].
  - discriminate.
  - discriminate.
  - reflexivity.
  - unfold fps_values. repeat constructor.
Qed.

Lemma app_ok_open_selector (p : Purpose) (a : App) :
  app_ok a -> app_ok (open_selector p a).
Proof.
  intros [Hsel Hrec Hrs Htm Hfps]. unfold open_selector.
  destruct (is_idle a) eqn:Hi; [|constructor; assumption]. cbn [negb].
  assert (Hnr : is_recording a = false)
    by (unfold is_idle, is_recording in *; destruct (app_state a); congruence).
  constructor; cbn [app_state selector recorder timer_manager fps_var is_recording].
  - split; [discriminate | reflexivity].
  - discriminate.
  - intros rs Hr. eapply recorder_ok_state; [|apply Hrs, Hr]. rewrite Hnr. reflexivity.
  - rewrite Htm, Hnr. reflexivity.
  - exact Hfps.
Qed.

Lemma app_ok_idle_same_recorder (a : App) (tm : TimerManager)
  (sv : list (string * (Z * Z * Z * Z))) :
  app_ok a -> is_recording a = false -> tm = timer_manager a ->
  app_ok (mkApp IDLE (recorder a) (abandoned a) tm None (fps_var a) sv (root_alive a)).
Proof.
  intros [Hsel Hrec Hrs Htm Hfps] Hnr ->.
  constructor; cbn [app_state selector recorder timer_manager fps_var is_recording].
  - split; [discriminate | intros H; contradiction H; reflexivity].
  - discriminate.
  - intros rs Hr. eapply recorder_ok_state; [|apply Hrs, Hr]. rewrite Hnr. reflexivity.
  - rewrite Htm, Hnr. reflexivity.
  - exact Hfps.
Qed.

Lemma selecting_not_recording (a : App) :
  app_ok a -> selector a <> None -> is_recording a = false.
Proof.
  intros [Hsel _ _ _ _] Hs. apply Hsel in Hs. unfold is_recording. rewrite Hs.
  reflexivity.
Qed.

Lemma app_ok_deliver (env : AppEnv) (start_pos : option (Q * Q)) (end_pos : Q * Q)
  (name : string) (time : Q) (a : App) :
  app_ok a ->
  app_ok (deliver env (on_release start_pos end_pos) name time a) /\
  app_ok (deliver env None name time a).
Proof.
  intros Hok. unfold deliver.
  destruct (selector a) as [[|]|] eqn:Hs; [| |split; exact Hok].
  - assert (Hnr : is_recording a = false)
      by (apply selecting_not_recording; [exact Hok | congruence]).
    split; unfold on_selection_screenshot;
      apply app_ok_idle_same_recorder; auto.
  - assert (Hnr : is_recording a = false)
      by (apply selecting_not_recording; [exact Hok | congruence]).
    split; unfold on_selection_recording;
      [|apply app_ok_idle_same_recorder; auto].
    destruct (on_release start_pos end_pos) as [r|] eqn:Hsel;
      [|apply app_ok_idle_same_recorder; auto].
    destruct (VideoRecorder_init r (fps_var a) name) as [rec|e] eqn:Hinit;
      [|apply app_ok_idle_same_recorder; auto].
    apply init_recorder in Hinit as (Hme & Hf & Hw & Ht).
    apply on_release_valid in Hsel as (_ & _ & Hw10 & Hh10).
    apply make_even_ok_iff in Hme as (_ & _ & _ & _ & Hreg).
    destruct (start_recording_boot (rec_env env) rec) as (Hr & Hfp & Hthr).
    assert (Hcommon :
      fps (self (snd (start_recording (rec_env env) (boot rec)))) ∈ fps_values /\
      Z.even (Region.width (region (self (snd (start_recording (rec_env env) (boot rec)))))) = true /\
      Z.even (Region.height (region (self (snd (start_recording (rec_env env) (boot rec)))))) = true /\
      10 <= Region.width (region (self (snd (start_recording (rec_env env) (boot rec))))) /\
      10 <= Region.height (region (self (snd (start_recording (rec_env env) (boot rec)))))).
    { rewrite Hr, Hfp, Hf, Hreg. cbn [Region.width Region.height].
      destruct (even_part (Region.width r)) as [_ He1].
      destruct (even_part (Region.height r)) as [_ He2].
      pose proof (Z.mod_pos_bound (Region.width r) 2 ltac:(lia)).
      pose proof (Z.mod_pos_bound (Region.height r) 2 ltac:(lia)).
      assert (Region.width r = 10 -> Region.width r mod 2 = 0) by (intros ->; reflexivity).
      assert (Region.height r = 10 -> Region.height r mod 2 = 0) by (intros ->; reflexivity).
      destruct Hok. repeat split; try assumption; lia. }
    pose proof (targets_held_start (rec_env env) rec) as Hheld.
    destruct (start_recording (rec_env env) (boot rec)) as [ok rs].
    cbn [fst snd] in *. destruct Hcommon as (C1 & C2 & C3 & C4 & C5).
    destruct ok.
    + destruct Hthr as [Htid Hths].
      constructor; cbn [app_state selector recorder timer_manager fps_var is_recording].
      * split; [discriminate | intros H; contradiction H; reflexivity].
      * discriminate.
      * intros rs' [= <-]. unfold recorder_ok. cbn [is_recording app_state].
        rewrite Hths. repeat (split; [assumption|]).
        split; [repeat constructor|]. split; [exact Hheld | auto].
      * unfold timer_start, update_display. cbn [is_running negb orb].
        destruct (start_time_falsy _); reflexivity.
      * destruct Hok; assumption.
    + destruct Hthr as (Htid & Hths & Hwr).
      constructor; cbn [app_state selector recorder timer_manager fps_var is_recording].
      * split; [discriminate | intros H; contradiction H; reflexivity].
      * discriminate.
      * intros rs' [= <-]. unfold recorder_ok. cbn [is_recording app_state].
        rewrite Htid, Ht, Hths. repeat (split; [assumption|]).
        split; [constructor|]. split; [exact Hheld | auto].
      * destruct Hok. congruence.
      * destruct Hok; assumption.
Qed.

Lemma app_ok_stop_recording (env : AppEnv) (a : App) :
  app_ok a -> app_ok (app_stop_recording env a).
Proof.
  intros Hok. unfold app_stop_recording.
  destruct (recorder a) as [rs|] eqn:Hr; [|exact Hok].
  destruct (is_recording a) eqn:Hrec; [|exact Hok].
  pose proof Hok as [Hsel _ _ _ Hfps].
  constructor; cbn [app_state selector recorder timer_manager fps_var is_recording].
  - split; [discriminate|]. intros Hs. apply Hsel in Hs.
    unfold is_recording in Hrec. rewrite Hs in Hrec. discriminate.
  - discriminate.
  - discriminate.
  - reflexivity.
  - exact Hfps.
Qed.

Lemma app_ok_destroy (env : AppEnv) (a : App) :
  app_ok a -> is_recording a = false -> app_ok (destroy env a).
Proof.
  intros [Hsel Hrec Hrs Htm Hfps] Hnr.
  assert (Hd : is_recording (destroy env a) = false) by exact Hnr.
  constructor.
  - exact Hsel.
  - rewrite Hd. discriminate.
  - intros rs' Hr'. unfold destroy in Hr'. cbn [recorder] in Hr'.
    destruct (recorder a) as [rs|] eqn:Hr; [|discriminate].
    injection Hr' as <-. specialize (Hrs rs eq_refl).
    assert (Hnt : recording_thread (self rs) = None).
    { unfold recorder_ok in Hrs. rewrite Hnr in Hrs. tauto. }
    rewrite (stop_recording_no_thread _ _ _ Hnt). cbn [snd].
    eapply recorder_ok_state; [|exact Hrs]. rewrite Hd, Hnr. reflexivity.
  - rewrite Hd. exact (eq_trans Htm Hnr).
  - exact Hfps.
Qed.

Lemma app_ok_same_state (a a' : App) :
  app_ok a ->
  app_state a' = app_state a -> selector a' = selector a ->
  is_running (timer_manager a') = is_running (timer_manager a) ->
  fps_var a' ∈ fps_values ->
  (forall rs', recorder a' = Some rs' ->
     exists rs, recorder a = Some rs /\ (recorder_ok a rs -> recorder_ok a rs')) ->
  (recorder a <> None -> recorder a' <> None) ->
  app_ok a'.
Proof.
  intros [Hsel Hrec Hrs Htm Hfps] Hst Hse Hti Hf Hre Hne.
  assert (Hir : is_recording a' = is_recording a)
    by (unfold is_recording; rewrite Hst; reflexivity).
  constructor.
  - rewrite Hst, Hse. exact Hsel.
  - rewrite Hir. intros H. apply Hne, Hrec, H.
  - intros rs' Hr'. destruct (Hre rs' Hr') as (rs & Hr & Himp).
    eapply recorder_ok_state; [|apply Himp, Hrs, Hr]. exact Hir.
  - rewrite Hti, Hir. exact Htm.
  - exact Hf.
Qed.

Lemma timer_fire_running (id : nat) (time : Q) (t : TimerManager) :
  is_running (timer_fire id time t) = is_running t.
Proof.
  unfold timer_fire. destruct (decide (id ∈ scheduled t)); [|reflexivity].
  unfold update_display. cbn [is_running].
  destruct (negb (is_running t) || _); [reflexivity|].
  destruct (start_time _); reflexivity.
Qed.

Lemma app_ok_apply (env : AppEnv) (a : App) (ev : AppEvent) :
  app_ok a -> app_ok (app_apply env a ev).
Proof.
  intros Hok.
  assert (Hthread : forall tid, app_ok (with_recorder (thread_step (rec_env env) tid) a)).
  { intros tid. apply (app_ok_same_state a); try reflexivity; [exact Hok | apply Hok | |].
    - cbn [with_recorder recorder]. intros rs' Hr'.
      destruct (recorder a) as [rs|]; [|discriminate]. injection Hr' as <-.
      exists rs. split; [reflexivity | apply recorder_ok_thread_step].
    - cbn [with_recorder recorder]. destruct (recorder a); [discriminate | auto]. }
  assert (Hsame : forall a', app_state a' = app_state a -> selector a' = selector a ->
            is_running (timer_manager a') = is_running (timer_manager a) ->
            fps_var a' ∈ fps_values -> recorder a' = recorder a -> app_ok a').
  { intros a' H1 H2 H3 H4 H5. apply (app_ok_same_state a); try assumption.
    - rewrite H5. intros rs' Hr'. eauto.
    - rewrite H5. auto. }
  destruct ev; cbn [app_apply].
  - destruct (root_alive a); [apply app_ok_open_selector, Hok | exact Hok].
  - destruct (root_alive a); [apply app_ok_open_selector, Hok | exact Hok].
  - destruct (root_alive a); [|exact Hok]. cbn [negb]. unfold choose_fps.
    destruct (decide (f ∈ fps_values)) as [Hin|]; [|exact Hok].
    apply Hsame; try reflexivity. exact Hin.
  - destruct (root_alive a); [|exact Hok]. cbn [negb].
    apply (app_ok_deliver env start_pos end_pos name time a Hok).
  - destruct (root_alive a); [|exact Hok]. cbn [negb].
    apply (app_ok_deliver env None (0, 0)%Q EmptyString time a Hok).
  - destruct (root_alive a); [|exact Hok]. apply app_ok_stop_recording, Hok.
  - destruct (root_alive a); [|exact Hok]. cbn [negb].
    unfold on_closing. destruct (is_recording a) eqn:Hrec.
    + destruct confirm; [|exact Hok].
      apply app_ok_destroy; [apply app_ok_stop_recording, Hok|].
      unfold app_stop_recording.
      destruct (recorder a) eqn:Hr; [rewrite Hrec; reflexivity|].
      destruct Hok as [_ Hrc _ _ _]. specialize (Hrc Hrec). contradiction.
    + apply app_ok_destroy; [exact Hok | exact Hrec].
  - destruct (root_alive a); [|exact Hok]. cbn [negb].
    apply Hsame; try reflexivity; [apply timer_fire_running | apply Hok].
  - apply Hthread.
  - apply Hsame; try reflexivity. apply Hok.
Qed.

Lemma finished_thread_step (env : Env) (tid : nat) (s : State) :
  Forall (fun th => is_alive th = false) (threads s) -> thread_step env tid s = s.
Proof.
  intros Hd. unfold thread_step.
  destruct (threads s !! tid) as [th|] eqn:E; [|reflexivity].
  pose proof (Forall_lookup_1 _ _ _ _ Hd E) as Ha.
  destruct th; try discriminate. reflexivity.
Qed.

Lemma iter_step_threads_length (env : Env) (tid n : nat) (s : State) :
  length (threads (Nat.iter n (thread_step env tid) s)) = length (threads s).
Proof.
  induction n as [|n IH]; simpl; [reflexivity|].
  rewrite thread_step_threads_length. exact IH.
Qed.

Lemma quiet_thread_step (env : Env) (tid : nat) (s : State) :
  quiet s -> quiet (thread_step env tid s).
Proof.
  intros [Hlen [Hs|Hd]].
  - split; [rewrite thread_step_threads_length; exact Hlen|].
    left. apply stopped_thread_step, Hs.
  - rewrite (finished_thread_step env tid s Hd). split; auto.
Qed.

(** What a recorder out of use still does: it writes no frame, and takes
    the screenshot of a thread that had passed the test of the flag. *)
Lemma quiet_thread_steps (env : Env) (tids : list nat) (s : State) :
  quiet s ->
  writers (thread_steps env tids s) = writers s /\
  exists extra,
    captures (thread_steps env tids s) = captures s ++ extra /\
    (length extra + count_capturing (threads (thread_steps env tids s)) =
     count_capturing (threads s))%nat /\
    (count_capturing (threads s) <= 1)%nat.
Proof.
  intros [Hlen Hq]. pose proof (count_capturing_le (threads s)) as Hle.
  destruct Hq as [Hs|Hd].
  - destruct (stopped_thread_steps env tids s Hs) as (_ & Hw & extra & Hc & Hn).
    split; [exact Hw|]. exists extra. split; [exact Hc|]. split; [exact Hn | lia].
  - assert (Hid : thread_steps env tids s = s).
    { induction tids as [|t tids IH]; [reflexivity|].
      unfold thread_steps in *. simpl.
      rewrite (finished_thread_step env t s Hd). exact IH. }
    rewrite Hid. split; [reflexivity|]. exists []. rewrite app_nil_r.
    split; [reflexivity|]. split; [reflexivity | lia].
Qed.

(** The recorder that [_stop_recording] lets go of. *)
Lemma stopped_recorder_quiet (env : Env) (timeout : Q) (rs : State) :
  recording_thread (self rs) = Some 0%nat ->
  length (threads rs) = 1%nat ->
  targets_held rs ->
  quiet (snd (stop_recording env timeout rs)).
Proof.
  intros Htid Hlen Hh.
  destruct (thread_alive rs 0) eqn:Halive.
  - split; [|left; apply (stop_recording_stopped env timeout 0 rs); assumption].
    unfold stop_recording. rewrite Htid, Halive. cbn [negb snd].
    rewrite cleanup_threads. unfold join.
    rewrite iter_step_threads_length. cbn [with_self threads]. lia.
  - unfold stop_recording. rewrite Htid, Halive. cbn [negb snd].
    split; [lia|]. right.
    destruct (threads rs) as [|th0 [|th1 ths]] eqn:E; try discriminate.
    unfold thread_alive in Halive. rewrite E in Halive. simpl in Halive.
    repeat constructor. exact Halive.
Qed.

Lemma abandoned_quiet_apply (env : AppEnv) (a : App) (ev : AppEvent) :
  app_ok a ->
  Forall quiet (abandoned a) ->
  Forall quiet (abandoned (app_apply env a ev)).
Proof.
  intros Hok Hq.
  assert (Hgo : is_recording a = false ->
                Forall quiet (let_go a)).
  { intros Hnr. unfold let_go. destruct (recorder a) as [rs|] eqn:Hr; [|exact Hq].
    apply Forall_app; split; [exact Hq|]. constructor; [|constructor].
    pose proof (ok_recorder a Hok rs Hr) as Hrs. unfold recorder_ok in Hrs.
    rewrite Hnr in Hrs. destruct Hrs as (_ & _ & _ & _ & _ & _ & _ & _ & Hth & _).
    split; [rewrite Hth; simpl; lia | right; rewrite Hth; constructor]. }
  assert (Hdeliver : forall region name time,
            Forall quiet (abandoned (deliver env region name time a))).
  { intros region name time. unfold deliver.
    destruct (selector a) as [[|]|] eqn:Hs; [exact Hq| |exact Hq].
    assert (Hnr : is_recording a = false)
      by (apply selecting_not_recording; [exact Hok | congruence]).
    unfold on_selection_recording. destruct region as [r|]; [|exact Hq].
    destruct (VideoRecorder_init r (fps_var a) name) as [rec|e]; [|exact Hq].
    destruct (start_recording (rec_env env) (boot rec)) as [[|] rs];
      cbn [abandoned]; apply Hgo, Hnr. }
  assert (Hstop : Forall quiet (abandoned (app_stop_recording env a))).
  { unfold app_stop_recording. destruct (recorder a) as [rs|] eqn:Hr; [|exact Hq].
    destruct (is_recording a) eqn:Hrec; [|exact Hq]. cbn [abandoned].
    apply Forall_app; split; [exact Hq|]. constructor; [|constructor].
    pose proof (ok_recorder a Hok rs Hr) as Hrs. unfold recorder_ok in Hrs.
    rewrite Hrec in Hrs. destruct Hrs as (_ & _ & _ & _ & _ & _ & Hh & Htid & Hlen).
    apply stopped_recorder_quiet; assumption. }
  destruct ev; cbn [app_apply].
  - destruct (root_alive a); [|exact Hq]. cbn [negb]. unfold open_selector.
    destruct (negb (is_idle a)); exact Hq.
  - destruct (root_alive a); [|exact Hq]. cbn [negb]. unfold open_selector.
    destruct (negb (is_idle a)); exact Hq.
  - destruct (root_alive a); [|exact Hq]. cbn [negb]. unfold choose_fps.
    destruct (decide _); exact Hq.
  - destruct (root_alive a); [|exact Hq]. apply Hdeliver.
  - destruct (root_alive a); [|exact Hq]. apply Hdeliver.
  - destruct (root_alive a); [|exact Hq]. apply Hstop.
  - destruct (root_alive a); [|exact Hq]. cbn [negb]. unfold on_closing.
    destruct (is_recording a); [destruct confirm|]; try exact Hq.
    unfold destroy. cbn [abandoned]. exact Hstop.
  - destruct (root_alive a); exact Hq.
  - exact Hq.
  - cbn [with_abandoned abandoned].
    apply Forall_alter; [exact Hq|]. intros rs _. apply quiet_thread_step.
Qed.

Lemma app_run_invariants (env : AppEnv) (evs : list AppEvent) :
  app_ok (app_run env evs app_new) /\
  Forall quiet (abandoned (app_run env evs app_new)).
Proof.
  assert (H : forall a, app_ok a -> Forall quiet (abandoned a) ->
            app_ok (app_run env evs a) /\
            Forall quiet (abandoned (app_run env evs a))).
  { induction evs as [|ev evs IH]; intros a Hok Hq; [auto|].
    unfold app_run. simpl. apply IH;
      [apply app_ok_apply, Hok | apply abandoned_quiet_apply; assumption]. }
  apply H; [apply app_ok_new | constructor].
Qed.

Lemma recording_iff (a : App) : is_recording a = true <-> app_state a = RECORDING.
Proof. unfold is_recording. destruct (app_state a); split; congruence. Qed.

Lemma app_timer_ok_apply (env : AppEnv) (a : App) (ev : AppEvent) :
  app_ok a -> timer_ok (timer_manager a) -> time_nonzero ev ->
  timer_ok (timer_manager (app_apply env a ev)).
Proof.
  intros Hok Ht Hnz.
  assert (Hstop : timer_ok (timer_manager (app_stop_recording env a))).
  { unfold app_stop_recording. destruct (recorder a); [|exact Ht].
    destruct (is_recording a); [|exact Ht]. cbn [timer_manager].
    apply (timer_ok_apply _ TStop Ht I). }
  assert (Hdeliver : forall region name time, ~ (time == 0)%Q \/ region = None ->
            timer_ok (timer_manager (deliver env region name time a))).
  { intros region name time Hcase. unfold deliver.
    destruct (selector a) as [[|]|] eqn:Hs; [exact Ht| |exact Ht].
    assert (Hnr : is_recording a = false)
      by (apply selecting_not_recording; [exact Hok | congruence]).
    unfold on_selection_recording. destruct region as [r|]; [|exact Ht].
    destruct Hcase as [Htime|]; [|discriminate].
    destruct (VideoRecorder_init r (fps_var a) name) as [rec|e]; [|exact Ht].
    destruct (start_recording (rec_env env) (boot rec)) as [[|] rs];
      cbn [timer_manager]; [|exact Ht].
    apply (timer_ok_apply _ (TStart time) Ht). split; [|exact Htime].
    rewrite (ok_timer a Hok). exact Hnr. }
  destruct ev; cbn [app_apply]; try exact Ht.
  - destruct (root_alive a); [|exact Ht]. cbn [negb]. unfold open_selector.
    destruct (negb (is_idle a)); exact Ht.
  - destruct (root_alive a); [|exact Ht]. cbn [negb]. unfold open_selector.
    destruct (negb (is_idle a)); exact Ht.
  - destruct (root_alive a); [|exact Ht]. cbn [negb]. unfold choose_fps.
    destruct (decide _); exact Ht.
  - destruct (root_alive a); [|exact Ht]. apply Hdeliver. left. exact Hnz.
  - destruct (root_alive a); [|exact Ht]. apply Hdeliver. right. reflexivity.
  - destruct (root_alive a); [|exact Ht]. apply Hstop.
  - destruct (root_alive a); [|exact Ht]. cbn [negb]. unfold on_closing.
    destruct (is_recording a); [destruct confirm|]; try exact Ht.
    unfold destroy. cbn [timer_manager]. exact Hstop.
  - destruct (root_alive a); [|exact Ht]. cbn [negb with_timer timer_manager].
    apply (timer_ok_apply _ (TFire id time) Ht I).
Qed.

(** X15. In every state the application reaches, its three records agree:
    it is [SELECTING] exactly when a region selector is open, it is
    [RECORDING] exactly when the timer runs, when it is [RECORDING] it
    holds a recorder with one started thread, and when it is not, the
    recorder it may still hold has no thread and holds no writer. *)
Theorem X15_app_state_consistent (env : AppEnv) (evs : list AppEvent) :
  let a := app_run env evs app_new in
  (app_state a = SELECTING <-> selector a <> None) /\
  (app_state a = RECORDING <-> is_running (timer_manager a) = true) /\
  (app_state a = RECORDING ->
     exists rs, recorder a = Some rs /\
                recording_thread (self rs) = Some 0%nat /\
                length (threads rs) = 1%nat) /\
  (app_state a <> RECORDING ->
     forall rs, recorder a = Some rs ->
       recording_thread (self rs) = None /\ threads rs = [] /\
       writer (self rs) = None).
Proof.
  intros a. destruct (app_run_invariants env evs) as [Hok _]. fold a in Hok.
  pose proof Hok as [Hsel Hrec Hrs Htm Hfps].
  split; [exact Hsel|]. split; [rewrite Htm; symmetry; apply recording_iff|]. split.
  - intros Hst. apply recording_iff in Hst.
    destruct (recorder a) as [rs|] eqn:Hr; [|contradiction (Hrec Hst); reflexivity].
    specialize (Hrs rs eq_refl). unfold recorder_ok in Hrs. rewrite Hst in Hrs.
    exists rs. tauto.
  - intros Hst rs Hr. specialize (Hrs rs Hr). unfold recorder_ok in Hrs.
    destruct (is_recording a) eqn:E; [apply recording_iff in E; contradiction|].
    tauto.
Qed.

(** X16. The recorder of the application is built from the frame rate box
    and from a region of the selector: its frame rate is 15, 24, 30 or 60,
    never 0, its region is at least 10 by 10 with an even width and height,
    and none of its threads has died of an exception raised outside the
    [try] of the loop. *)
Theorem X16_app_recorder_parameters (env : AppEnv) (evs : list AppEvent)
  (rs : State) :
  recorder (app_run env evs app_new) = Some rs ->
  fps (self rs) ∈ [15; 24; 30; 60] /\ fps (self rs) <> 0 /\
  Z.even (Region.width (region (self rs))) = true /\
  Z.even (Region.height (region (self rs))) = true /\
  10 <= Region.width (region (self rs)) /\
  10 <= Region.height (region (self rs)) /\
  forall tid e n, threads rs !! tid <> Some (Finished (Crashed e) n).
Proof.
  intros Hr. destruct (app_run_invariants env evs) as [Hok _].
  pose proof (ok_recorder _ Hok rs Hr) as (H1 & H2 & H3 & H4 & H5 & Hc & _).
  repeat (split; [first [assumption | apply fps_values_nonzero, H1]|]).
  intros tid e n Hl. apply (Forall_lookup_1 _ _ _ _ Hc) in Hl. exact Hl.
Qed.

Lemma X16_app_recorder_parameters_witness :
  exists rs, recorder (app_run sample_app_env sample_session app_new) = Some rs /\
             fps (self rs) <> 0 /\
             10 <= Region.width (region (self rs)).
Proof.
  eexists. split; [reflexivity|].
  destruct (X16_app_recorder_parameters sample_app_env sample_session _ eq_refl)
    as (_ & H2 & _ & _ & H5 & _).
  split; [exact H2 | exact H5].
Defined.

(** X17. As long as the clock does not read 0 when a recording starts,
    the timer of the application keeps a single chain of callbacks: while
    the application is [RECORDING] exactly one callback is scheduled, and
    otherwise none is and the display shows zeros. *)
Theorem X17_app_timer (env : AppEnv) (evs : list AppEvent) :
  Forall time_nonzero evs ->
  let a := app_run env evs app_new in
  (app_state a = RECORDING ->
     exists id, after_id (timer_manager a) = Some id /\
                scheduled (timer_manager a) = [id]) /\
  (app_state a <> RECORDING ->
     scheduled (timer_manager a) = [] /\
     timer_var (timer_manager a) = "00:00:00"%string).
Proof.
  intros Hnz a.
  assert (H : forall a0, app_ok a0 -> timer_ok (timer_manager a0) ->
            app_ok (app_run env evs a0) /\ timer_ok (timer_manager (app_run env evs a0))).
  { induction Hnz as [|ev evs Hev _ IH]; intros a0 Hok Ht; [auto|].
    unfold app_run. simpl. apply IH;
      [apply app_ok_apply, Hok | apply app_timer_ok_apply; assumption]. }
  destruct (H app_new app_ok_new) as [Hok [Hrun Hidle]].
  { split; [discriminate | auto]. }
  fold a in Hok, Hrun, Hidle. pose proof (ok_timer a Hok) as Htm. split.
  - intros Hst. apply recording_iff in Hst. rewrite <- Htm in Hst.
    destruct (Hrun Hst) as (id & t0 & Ha & Hs & _). eauto.
  - intros Hst. apply Hidle. rewrite Htm.
    destruct (is_recording a) eqn:E; [apply recording_iff in E; contradiction|].
    reflexivity.
Qed.

Lemma X17_app_timer_witness :
  exists id,
    after_id (timer_manager (app_run sample_app_env sample_session app_new)) = Some id /\
    scheduled (timer_manager (app_run sample_app_env sample_session app_new)) = [id].
Proof.
  refine (proj1 (X17_app_timer sample_app_env sample_session _) eq_refl).
  unfold sample_session. repeat constructor. intros H. discriminate H.
Defined.

(** X18. The stop button while [RECORDING]: the application becomes
    [IDLE], lets go of the recorder and stops the timer, which shows zeros,
    whatever [stop_recording] returned.  The recorder it has let go of
    never writes a frame again, and takes one more screenshot at most: the
    one of a thread that had tested the flag before it was set. *)
Theorem X18_app_stop (env : AppEnv) (evs : list AppEvent) :
  let a := app_run env evs app_new in
  app_state a = RECORDING -> root_alive a = true ->
  let a' := app_apply env a EvStop in
  app_state a' = IDLE /\ recorder a' = None /\
  is_running (timer_manager a') = false /\
  timer_var (timer_manager a') = "00:00:00"%string /\
  exists rs rs',
    recorder a = Some rs /\
    rs' = snd (stop_recording (rec_env env) 5 rs) /\
    abandoned a' = abandoned a ++ [rs'] /\
    forall tids,
      writers (thread_steps (rec_env env) tids rs') = writers rs' /\
      exists extra,
        captures (thread_steps (rec_env env) tids rs') = captures rs' ++ extra /\
        (length extra +
           count_capturing (threads (thread_steps (rec_env env) tids rs')) =
         count_capturing (threads rs'))%nat /\
        (count_capturing (threads rs') <= 1)%nat.
Proof.
  intros a Hst Halive a'. destruct (app_run_invariants env evs) as [Hok _].
  fold a in Hok. apply recording_iff in Hst.
  destruct (recorder a) as [rs|] eqn:Hr;
    [|contradiction (ok_recording a Hok Hst); exact Hr].
  pose proof (ok_recorder a Hok rs Hr) as Hrs. unfold recorder_ok in Hrs.
  rewrite Hst in Hrs. destruct Hrs as (_ & _ & _ & _ & _ & _ & Hh & Htid & Hlen).
  subst a'. cbn [app_apply]. rewrite Halive. cbn [negb].
  unfold app_stop_recording. rewrite Hr, Hst.
  cbn [app_state recorder timer_manager abandoned].
  repeat (split; [reflexivity|]).
  exists rs, (snd (stop_recording (rec_env env) 5 rs)).
  repeat (split; [reflexivity|]).
  intros tids. apply quiet_thread_steps, stopped_recorder_quiet; assumption.
Qed.

Lemma X18_app_stop_witness :
  app_state (app_apply sample_app_env
               (app_run sample_app_env sample_session app_new) EvStop) = IDLE /\
  recorder (app_apply sample_app_env
              (app_run sample_app_env sample_session app_new) EvStop) = None.
Proof.
  destruct (X18_app_stop sample_app_env sample_session eq_refl eq_refl)
    as (H1 & H2 & _).
  split; [exact H1 | exact H2].
Defined.

(** X19. At most one recorder is at work: every recorder the application
    has let go of, by stopping it or by building another one, never writes
    a frame again, whatever steps its threads still take, and takes one
    more screenshot at most: the one of a thread that had tested the flag
    before it was set. *)
Theorem X19_abandoned_recorders_quiet (env : AppEnv) (evs : list AppEvent)
  (i : nat) (rs : State) (tids : list nat) :
  abandoned (app_run env evs app_new) !! i = Some rs ->
  writers (thread_steps (rec_env env) tids rs) = writers rs /\
  exists extra,
    captures (thread_steps (rec_env env) tids rs) = captures rs ++ extra /\
    (length extra + count_capturing (threads (thread_steps (rec_env env) tids rs)) =
     count_capturing (threads rs))%nat /\
    (count_capturing (threads rs) <= 1)%nat.
Proof.
  intros Hl. destruct (app_run_invariants env evs) as [_ Hq].
  apply quiet_thread_steps. apply (Forall_lookup_1 _ _ _ _ Hq Hl).
Qed.

Lemma X19_abandoned_recorders_quiet_witness :
  exists rs,
    abandoned (app_run hasty_app_env interrupted_session app_new) !! 0%nat = Some rs /\
    count_capturing (threads rs) = 1%nat /\
    writers (thread_steps no_join_env [0; 0; 0]%nat rs) = writers rs /\
    captures (thread_steps no_join_env [0; 0; 0]%nat rs) =
      captures rs ++ [(19, 12, 100, 66)].
Proof.
  eexists. split; [reflexivity|]. split; [reflexivity|].
  split; [|reflexivity].
  exact (proj1 (X19_abandoned_recorders_quiet hasty_app_env interrupted_session
                  0 _ [0; 0; 0]%nat eq_refl)).
Defined.
